(** * UserService (src/moderatelyTestable.ts): cache, in-flight flag, storage
      fallback, preference merge and user score

    The TypeScript class [UserService] is embedded as follows.

    - Numbers that hold milliseconds or scores are integers ([Z]): [Date.now()],
      [Date.prototype.getTime()] and the cache duration are integral
      milliseconds, and every score increment is an integer.
    - Strings are Rocq strings, one character per code unit.
    - [Map<string, User>] is a [gmap string User].
    - The three injected collaborators are modelled by what the service can
      observe of them: the storage is an interface (a type class) whose
      operations may throw; the logger appends to a log; the API client's
      requests are recorded in a trace and its replies come from outside.
    - Synchronous stretches of code run in a state-and-exception monad over the
      [World]; an [await] ends a stretch, so an [async] method is cut at its
      awaits into the stretches between them. *)

From Stdlib Require Import ZArith String Ascii List Lia Bool DecimalString.
From stdpp Require Import gmap strings list.

Local Open Scope string_scope.
Local Open Scope Z_scope.

(** ** Domain types *)

Inductive Theme := light | dark | system.

Record UserPreferences := {
  theme : Theme;
  notifications : bool;
  language : string
}.

(** A [Date] holds a time value in milliseconds, or [NaN] (an invalid date),
    which is [None] here. *)
Record Date := { getTime : option Z }.

Record User := {
  id : string;
  name : string;
  email : string;
  lastLogin : option Date;
  preferences : option UserPreferences
}.

(** [Partial<UserPreferences>]: every field may be absent. *)
Record PartialUserPreferences := {
  p_theme : option Theme;
  p_notifications : option bool;
  p_language : option string
}.

#[global] Instance Theme_eq_dec : EqDecision Theme.
Proof. solve_decision. Defined.
#[global] Instance UserPreferences_eq_dec : EqDecision UserPreferences.
Proof. solve_decision. Defined.
#[global] Instance Date_eq_dec : EqDecision Date.
Proof. solve_decision. Defined.
#[global] Instance User_eq_dec : EqDecision User.
Proof. solve_decision. Defined.

(** ** Thrown values and results *)

Inductive JsError :=
  | Error (message : string)
  | TypeError (message : string)
  | SyntaxError (message : string).

Inductive Outcome (A : Type) :=
  | Returned (a : A)
  | Thrown (e : JsError).
Arguments Returned {A} a.
Arguments Thrown {A} e.

(** ** The string operations the service uses *)

Module JsString.

(** A string is truthy when it is not empty. *)
Definition truthy (s : string) : bool :=
  match s with EmptyString => false | String _ _ => true end.

(** [s.split(sep)] for a one-character separator: the pieces between the
    occurrences of [sep], in order; the empty string gives one empty piece. *)
Fixpoint split (sep : ascii) (s : string) : list string :=
  match s with
  | EmptyString => [EmptyString]
  | String c rest =>
      if Ascii.eqb c sep then EmptyString :: split sep rest
      else match split sep rest with
           | piece :: pieces => String c piece :: pieces
           | [] => [String c EmptyString]
           end
  end.

(** [s.endsWith(suffix)]. *)
Definition endsWith (s suffix : string) : bool :=
  let n := String.length s in
  let k := String.length suffix in
  if (k <=? n)%nat then String.eqb (substring (n - k) k s) suffix else false.

(** White space as [trim] sees it, among the code units below 256:
    TAB, LF, VT, FF, CR, SP and NBSP. *)
Definition is_space (c : ascii) : bool :=
  match nat_of_ascii c with
  | 9%nat | 10%nat | 11%nat | 12%nat | 13%nat | 32%nat | 160%nat => true
  | _ => false
  end.

Fixpoint trimStart (s : string) : string :=
  match s with
  | EmptyString => EmptyString
  | String c rest => if is_space c then trimStart rest else s
  end.

Fixpoint trimEnd (s : string) : string :=
  match s with
  | EmptyString => EmptyString
  | String c rest =>
      match trimEnd rest with
      | EmptyString => if is_space c then EmptyString else String c EmptyString
      | rest' => String c rest'
      end
  end.

Definition trim (s : string) : string := trimEnd (trimStart s).

(** [a === b] where [a] may be [undefined]. *)
Definition strict_eq (a : option string) (b : string) : bool :=
  match a with
  | Some a => String.eqb a b
  | None => false
  end.

End JsString.

(** ** calculateUserScore *)

Section Score.

(** [now] is what [Date.now()] returns during the call. *)
Variable now : Z.

Definition ms_per_day : Z := 1000 * 60 * 60 * 24.

(** Factor 1: the email domain. [domain] is the second piece of
    [email.split('@')], [undefined] when there is none; calling [endsWith]
    on [undefined] throws a [TypeError]. *)
Definition email_factor (user : User) (score : Z) : Outcome Z :=
  if JsString.truthy (email user) then
    let domain := JsString.split "@" (email user) !! 1%nat in
    if JsString.strict_eq domain "gmail.com" then Returned (score + 5)
    else if JsString.strict_eq domain "hotmail.com" then Returned (score + 3)
    else match domain with
         | None => Thrown (TypeError "Cannot read properties of undefined (reading 'endsWith')")
         | Some d =>
             if JsString.endsWith d ".edu" then Returned (score + 10)
             else if JsString.endsWith d ".gov" then Returned (score + 15)
             else Returned (score + 2)
         end
  else Returned score.

(** Factor 2: last login recency. [daysSinceLogin < k] is compared on the
    milliseconds: for integral milliseconds [ms / ms_per_day < k] holds
    exactly when [ms < k * ms_per_day]. An invalid date gives [NaN], and
    every comparison with [NaN] is false. *)
Definition login_factor (user : User) (score : Z) : Z :=
  match lastLogin user with
  | Some d =>
      match getTime d with
      | Some t =>
          let msSinceLogin := now - t in
          if msSinceLogin <? 1 * ms_per_day then score + 20
          else if msSinceLogin <? 7 * ms_per_day then score + 15
          else if msSinceLogin <? 30 * ms_per_day then score + 5
          else score
      | None => score
      end
  | None => score
  end.

(** Factor 3: name parts and name length. *)
Definition name_factor (user : User) (score : Z) : Z :=
  if JsString.truthy (name user) then
    let nameParts := JsString.split " " (JsString.trim (name user)) in
    let score := score + Z.min (Z.of_nat (List.length nameParts) * 2) 10 in
    let totalLength := Z.of_nat (String.length (name user)) in
    if 15 <? totalLength then score + 3
    else if 10 <? totalLength then score + 2
    else if 5 <? totalLength then score + 1
    else score
  else score.

(** Factor 4: preferences. *)
Definition preferences_factor (user : User) (score : Z) : Z :=
  match preferences user with
  | Some prefs =>
      let score := if notifications prefs then score + 5 else score in
      let score := if decide (theme prefs = dark) then score + 2 else score in
      if JsString.truthy (language prefs) && negb (String.eqb (language prefs) "en")
      then score + 3 else score
  | None => score
  end.

(** [Math.round] of an integer. *)
Definition Math_round (score : Z) : Z := score.

Definition calculateUserScore (user : option User) : Outcome Z :=
  match user with
  | None => Returned 0
  | Some user =>
      let score := 10 in
      match email_factor user score with
      | Thrown e => Thrown e
      | Returned score =>
          let score := login_factor user score in
          let score := name_factor user score in
          let score := preferences_factor user score in
          Returned (Math_round score)
      end
  end.

End Score.


(** ** Collaborators *)

(** The [Storage] interface. An operation returns or throws, and leaves the
    store in some state either way. *)
Class Storage (S : Type) := {
  getItem : S → string → Outcome (option string) * S;
  setItem : S → string → string → Outcome unit * S;
  removeItem : S → string → Outcome unit * S
}.

(** What [JSON.parse(data) as User] yields: a user whose [lastLogin], if any,
    is still the string [JSON.stringify] wrote for the date. *)
Record StoredUser := {
  stored_id : string;
  stored_name : string;
  stored_email : string;
  stored_lastLogin : option string;
  stored_preferences : option UserPreferences
}.

(** The built-ins of the language the service calls: [JSON.stringify],
    [JSON.parse] and [new Date(string)]. [JSON.parse] throws a [SyntaxError]
    on the empty string. *)
Class Json := {
  JSON_stringify : User → Outcome string;
  JSON_parse : string → Outcome StoredUser;
  new_Date : string → Date;
  JSON_parse_empty : ∃ e, JSON_parse "" = Thrown e
}.

(** What the logger receives next to the message. *)
Inductive LogData :=
  | data_id (id : string)
  | data_update (userId : string) (preferences : PartialUserPreferences).

Inductive LogEntry :=
  | logged_log (message : string) (data : LogData)
  | logged_error (message : string) (error : JsError).

(** A request handed to the API client. *)
Inductive Request :=
  | GET (url : string)
  | POST (url : string) (data : UserPreferences).

(** ** The service and the world it runs in *)

Record UserService := {
  cachedUsers : gmap string User;
  lastFetchTime : Z;
  fetchInProgress : bool;
  cacheDuration : Z
}.

Definition default_cacheDuration : Z := 60000.

(** [new UserService(apiClient, logger, storage, cacheDuration)]. *)
Definition new_UserService (cacheDuration : Z) : UserService :=
  {| cachedUsers := ∅; lastFetchTime := 0; fetchInProgress := false;
     cacheDuration := cacheDuration |}.

Record World (S : Type) := {
  this : UserService;
  storage : S;
  logger : list LogEntry;     (* what the logger was given, oldest first *)
  apiClient : list Request;   (* the requests issued, oldest first *)
  clock : Z                   (* what [Date.now()] returns *)
}.
Arguments this {S} w.
Arguments storage {S} w.
Arguments logger {S} w.
Arguments apiClient {S} w.
Arguments clock {S} w.

(** ** Synchronous code: state and exceptions *)

Definition Sync (S A : Type) : Type := World S → Outcome A * World S.

#[global] Instance Sync_ret {S} : MRet (Sync S) :=
  λ A a w, (Returned a, w).

#[global] Instance Sync_bind {S} : MBind (Sync S) :=
  λ A B k m w,
    match m w with
    | (Returned a, w') => k a w'
    | (Thrown e, w') => (Thrown e, w')
    end.

Section Sync.
Context {S : Type}.

Definition throw {A} (e : JsError) : Sync S A := λ w, (Thrown e, w).

(** [try { body } catch (error) { handler }]. *)
Definition try_catch {A} (body : Sync S A) (handler : JsError → Sync S A) : Sync S A :=
  λ w, match body w with
       | (Returned a, w') => (Returned a, w')
       | (Thrown e, w') => handler e w'
       end.

(** [try { body } finally { final }]: [final] runs on both exits, and the
    body's result stands unless [final] itself throws. *)
Definition try_finally {A} (body : Sync S A) (final : Sync S unit) : Sync S A :=
  λ w, match body w with
       | (r, w') =>
           match final w' with
           | (Returned _, w'') => (r, w'')
           | (Thrown e, w'') => (Thrown e, w'')
           end
       end.

(** Continuing after an [await]: the awaited promise was fulfilled with a
    value, or rejected, which throws at the [await]. *)
Definition awaited {A} (reply : Outcome A) : Sync S A := λ w, (reply, w).

(** A call of a built-in that returns or throws and touches nothing. *)
Definition builtin {A} (r : Outcome A) : Sync S A := λ w, (r, w).

Definition Date_now : Sync S Z := λ w, (Returned (clock w), w).

Definition get_this : Sync S UserService := λ w, (Returned (this w), w).

Definition set_this (f : UserService → UserService) : Sync S unit :=
  λ w, (Returned (),
        {| this := f (this w); storage := storage w; logger := logger w;
           apiClient := apiClient w; clock := clock w |}).

Definition logger_log (message : string) (data : LogData) : Sync S unit :=
  λ w, (Returned (),
        {| this := this w; storage := storage w;
           logger := logger w ++ [logged_log message data];
           apiClient := apiClient w; clock := clock w |}).

Definition logger_error (message : string) (error : JsError) : Sync S unit :=
  λ w, (Returned (),
        {| this := this w; storage := storage w;
           logger := logger w ++ [logged_error message error];
           apiClient := apiClient w; clock := clock w |}).

(** Handing a request to the API client; its reply is awaited. *)
Definition apiClient_send (r : Request) : Sync S unit :=
  λ w, (Returned (),
        {| this := this w; storage := storage w; logger := logger w;
           apiClient := apiClient w ++ [r]; clock := clock w |}).

Context `{!Storage S}.

Definition storage_op {A} (op : S → Outcome A * S) : Sync S A :=
  λ w, match op (storage w) with
       | (r, s') =>
           (r, {| this := this w; storage := s'; logger := logger w;
                  apiClient := apiClient w; clock := clock w |})
       end.

Definition storage_getItem (key : string) : Sync S (option string) :=
  storage_op (λ s, getItem s key).

Definition storage_setItem (key value : string) : Sync S unit :=
  storage_op (λ s, setItem s key value).

End Sync.

(** Field updates of the service. *)
Definition set_cachedUsers (f : gmap string User → gmap string User) (t : UserService) : UserService :=
  {| cachedUsers := f (cachedUsers t); lastFetchTime := lastFetchTime t;
     fetchInProgress := fetchInProgress t; cacheDuration := cacheDuration t |}.

Definition set_lastFetchTime (time : Z) (t : UserService) : UserService :=
  {| cachedUsers := cachedUsers t; lastFetchTime := time;
     fetchInProgress := fetchInProgress t; cacheDuration := cacheDuration t |}.

Definition set_fetchInProgress (b : bool) (t : UserService) : UserService :=
  {| cachedUsers := cachedUsers t; lastFetchTime := lastFetchTime t;
     fetchInProgress := b; cacheDuration := cacheDuration t |}.

(** ** The methods of UserService *)

(** Where [getUserById] stands when its first synchronous stretch ends. *)
Inductive Started :=
  | CacheHit (cachedUser : User)        (* [return cachedUser] *)
  | RetryAfter (ms : Z)                 (* [setTimeout(() => resolve(this.getUserById(id)), ms)] *)
  | AwaitingGet (id : string) (now : Z) (* at [await this.apiClient.get(...)], holding [id] and [now] *).

Definition set_preferences (user : User) (p : UserPreferences) : User :=
  {| id := id user; name := name user; email := email user;
     lastLogin := lastLogin user; preferences := Some p |}.

(** The object literal of [updateUserPreferences]: three defaults, then the
    spread of [user.preferences] (nothing when it is absent), then the spread
    of the partial [preferences]. *)
Definition default_preferences : UserPreferences :=
  {| theme := system; notifications := false; language := "en" |}.

Definition spread (base : UserPreferences) (over : option UserPreferences) : UserPreferences :=
  match over with
  | Some p => p
  | None => base
  end.

Definition spread_partial (base : UserPreferences) (over : PartialUserPreferences) : UserPreferences :=
  {| theme := default (theme base) (p_theme over);
     notifications := default (notifications base) (p_notifications over);
     language := default (language base) (p_language over) |}.

Definition updatedPreferences (user : User) (preferences' : PartialUserPreferences) : UserPreferences :=
  spread_partial (spread default_preferences (preferences user)) preferences'.

(** The storage key of a user: the template [user_${user.id}]. *)
Definition user_key (user : User) : string := "user_" +:+ id user.

Section UserService.
Context {S : Type} `{!Storage S} `{!Json}.

(** [saveUserToStorage]. *)
Definition saveUserToStorage (user : User) : Sync S unit :=
  try_catch
    (value ← builtin (JSON_stringify user);
     storage_setItem (user_key user) value)
    (λ error, logger_error "Failed to save user to storage" error).

(** [if (user.lastLogin) user.lastLogin = new Date(user.lastLogin)]: an
    absent or empty [lastLogin] is left as it is, which a later
    [if (user.lastLogin)] takes for absent. *)
Definition rehydrate (user : StoredUser) : User :=
  {| id := stored_id user; name := stored_name user; email := stored_email user;
     lastLogin :=
       match stored_lastLogin user with
       | Some s => if JsString.truthy s then Some (new_Date s) else None
       | None => None
       end;
     preferences := stored_preferences user |}.

(** [getUserFromStorage]; [None] is [null]. *)
Definition getUserFromStorage (id : string) : Sync S (option User) :=
  try_catch
    (data ← storage_getItem ("user_" +:+ id);
     match data with
     | None => mret None
     | Some data =>
         if negb (JsString.truthy data) then mret None
         else
           user ← builtin (JSON_parse data);
           mret (Some (rehydrate user))
     end)
    (λ error, logger_error "Failed to get user from storage" error;; mret None).

(** [getUserById], from the call (or from the retry timer) to the first
    point where it returns or waits. *)
Definition getUserById_start (id : string) : Sync S Started :=
  t ← get_this;
  let cachedUser := cachedUsers t !! id in
  now ← Date_now;
  match cachedUser, now - lastFetchTime t <? cacheDuration t with
  | Some cachedUser, true =>
      logger_log "Cache hit for user" (data_id id);;
      mret (CacheHit cachedUser)
  | _, _ =>
      if fetchInProgress t then mret (RetryAfter 100)
      else
        set_this (set_fetchInProgress true);;
        logger_log "Fetching user data" (data_id id);;
        apiClient_send (GET ("/users/" +:+ id));;
        mret (AwaitingGet id now)
  end.

(** [getUserById], from the reply to the GET to the end: the rest of the
    [try] block, the [catch] block and the [finally] block. *)
Definition getUserById_resume (id : string) (now : Z) (reply : Outcome User) : Sync S User :=
  try_finally
    (try_catch
       (user ← awaited reply;
        set_this (set_cachedUsers (insert id user));;
        set_this (set_lastFetchTime now);;
        saveUserToStorage user;;
        mret user)
       (λ error,
          logger_error "Failed to fetch user" error;;
          storedUser ← getUserFromStorage id;
          match storedUser with
          | Some storedUser => mret storedUser
          | None => throw (Error ("Failed to fetch user with ID " +:+ id))
          end))
    (set_this (set_fetchInProgress false)).

(** The [catch] block of [updateUserPreferences]. *)
Definition updateUserPreferences_catch {A} (userId : string) (error : JsError) : Sync S A :=
  logger_error "Failed to update preferences" error;;
  throw (Error ("Failed to update preferences for user " +:+ userId)).

(** [updateUserPreferences] from the moment [getUserById(userId)] has
    settled to the POST: [Returned updatedPreferences] stands for waiting at
    [await this.apiClient.post(...)]. *)
Definition updateUserPreferences_merge (userId : string)
    (preferences' : PartialUserPreferences) (fetched : Outcome User) : Sync S UserPreferences :=
  try_catch
    (user ← awaited fetched;
     let updatedPreferences := updatedPreferences user preferences' in
     apiClient_send (POST ("/users/" +:+ userId +:+ "/preferences") updatedPreferences);;
     mret updatedPreferences)
    (updateUserPreferences_catch userId).

(** [updateUserPreferences] from the reply to the POST to the end. *)
Definition updateUserPreferences_resume (userId : string)
    (preferences' : PartialUserPreferences) (updatedPreferences : UserPreferences)
    (reply : Outcome User) : Sync S User :=
  try_catch
    (user ← awaited reply;
     let user := set_preferences user updatedPreferences in
     set_this (set_cachedUsers (insert userId user));;
     saveUserToStorage user;;
     logger_log "Updated user preferences" (data_update userId preferences');;
     mret user)
    (updateUserPreferences_catch userId).

(** [clearCache]. *)
Definition clearCache : Sync S unit :=
  set_this (set_cachedUsers (λ _, ∅));;
  set_this (set_lastFetchTime 0).

End UserService.

(** ** Calls in progress

    The runtime has one thread: a stretch of synchronous code runs to its end,
    and between stretches other calls may run. A call of [getUserById] that
    has not settled is waiting for its retry timer or for the reply to its
    GET; a call of [updateUserPreferences] is waiting for its [getUserById],
    or for the reply to its POST. *)

Inductive FetchTask :=
  | Sleeping (id : string) (wake : Z)   (* the retry timer fires at [wake] *)
  | InFlight (id : string) (now : Z)    (* the GET is on its way *)
  | Settled (r : Outcome User).

Inductive Task :=
  | GetUserById (f : FetchTask)
  | UpdateFetching (userId : string) (preferences' : PartialUserPreferences) (f : FetchTask)
  | UpdatePosting (userId : string) (preferences' : PartialUserPreferences)
      (updatedPreferences : UserPreferences)
  | UpdateSettled (r : Outcome User).

Record System (S : Type) := {
  world : World S;
  tasks : list Task
}.
Arguments world {S} s.
Arguments tasks {S} s.

(** What can happen next: a client calls a method, a timer fires, a reply
    arrives, a settled [getUserById] lets its caller go on, or time passes. *)
Inductive Event :=
  | call_getUserById (id : string)
  | call_updateUserPreferences (userId : string) (preferences' : PartialUserPreferences)
  | call_clearCache
  | timer_fires (i : nat)
  | get_settles (i : nat) (reply : Outcome User)
  | update_continues (i : nat)
  | post_settles (i : nat) (reply : Outcome User)
  | time_passes (ms : Z).

Definition set_clock {S} (time : Z) (w : World S) : World S :=
  {| this := this w; storage := storage w; logger := logger w;
     apiClient := apiClient w; clock := time |}.

Section System.
Context {S : Type} `{!Storage S} `{!Json}.

(** Running [getUserById(id)] from its first line. *)
Definition launch (id : string) (w : World S) : FetchTask * World S :=
  match getUserById_start id w with
  | (Returned (CacheHit cachedUser), w') => (Settled (Returned cachedUser), w')
  | (Returned (RetryAfter ms), w') => (Sleeping id (clock w' + ms), w')
  | (Returned (AwaitingGet id' now), w') => (InFlight id' now, w')
  | (Thrown e, w') => (Settled (Thrown e), w')
  end.

(** The retry timer of a sleeping call fires, not before its time. *)
Definition wake_up (f : FetchTask) (w : World S) : option (FetchTask * World S) :=
  match f with
  | Sleeping id wake => if wake <=? clock w then Some (launch id w) else None
  | _ => None
  end.

(** The reply to the GET of a call arrives. *)
Definition settle_get (reply : Outcome User) (f : FetchTask) (w : World S)
    : option (FetchTask * World S) :=
  match f with
  | InFlight id now =>
      match getUserById_resume id now reply w with
      | (r, w') => Some (Settled r, w')
      end
  | _ => None
  end.

(** A step on the [getUserById] a task is in, if it is in one. *)
Definition on_fetch (go : FetchTask → World S → option (FetchTask * World S))
    (t : Task) (w : World S) : option (Task * World S) :=
  match t with
  | GetUserById f =>
      match go f w with
      | Some (f', w') => Some (GetUserById f', w')
      | None => None
      end
  | UpdateFetching userId p f =>
      match go f w with
      | Some (f', w') => Some (UpdateFetching userId p f', w')
      | None => None
      end
  | _ => None
  end.

Definition continue_update (t : Task) (w : World S) : option (Task * World S) :=
  match t with
  | UpdateFetching userId p (Settled fetched) =>
      match updateUserPreferences_merge userId p fetched w with
      | (Returned updated, w') => Some (UpdatePosting userId p updated, w')
      | (Thrown e, w') => Some (UpdateSettled (Thrown e), w')
      end
  | _ => None
  end.

Definition settle_post (reply : Outcome User) (t : Task) (w : World S)
    : option (Task * World S) :=
  match t with
  | UpdatePosting userId p updated =>
      match updateUserPreferences_resume userId p updated reply w with
      | (r, w') => Some (UpdateSettled r, w')
      end
  | _ => None
  end.

Definition on_task (i : nat) (go : Task → World S → option (Task * World S))
    (s : System S) : option (System S) :=
  match tasks s !! i with
  | Some t =>
      match go t (world s) with
      | Some (t', w') => Some {| world := w'; tasks := <[i:=t']> (tasks s) |}
      | None => None
      end
  | None => None
  end.

Definition step (e : Event) (s : System S) : option (System S) :=
  match e with
  | call_getUserById id =>
      match launch id (world s) with
      | (f, w') => Some {| world := w'; tasks := tasks s ++ [GetUserById f] |}
      end
  | call_updateUserPreferences userId p =>
      match launch userId (world s) with
      | (f, w') => Some {| world := w'; tasks := tasks s ++ [UpdateFetching userId p f] |}
      end
  | call_clearCache =>
      match clearCache (world s) with
      | (_, w') => Some {| world := w'; tasks := tasks s |}
      end
  | timer_fires i => on_task i (on_fetch wake_up) s
  | get_settles i reply => on_task i (on_fetch (settle_get reply)) s
  | update_continues i => on_task i continue_update s
  | post_settles i reply => on_task i (settle_post reply) s
  | time_passes ms =>
      if 0 <=? ms
      then Some {| world := set_clock (clock (world s) + ms) (world s); tasks := tasks s |}
      else None
  end.

Fixpoint run (es : list Event) (s : System S) : option (System S) :=
  match es with
  | [] => Some s
  | e :: es =>
      match step e s with
      | Some s' => run es s'
      | None => None
      end
  end.

(** A freshly constructed service, nothing called yet. *)
Definition initial (cacheDuration : Z) (store : S) (time : Z) : System S :=
  {| world := {| this := new_UserService cacheDuration; storage := store;
                 logger := []; apiClient := []; clock := time |};
     tasks := [] |}.

Definition reachable (s : System S) : Prop :=
  ∃ cacheDuration store time es, run es (initial cacheDuration store time) = Some s.

(** A task whose GET is on its way. *)
Definition in_flight (t : Task) : bool :=
  match t with
  | GetUserById (InFlight _ _) | UpdateFetching _ _ (InFlight _ _) => true
  | _ => false
  end.

Definition gets_in_flight (ts : list Task) : nat :=
  length (List.filter in_flight ts).

End System.

(** ** Words of the specification about the email factor *)

Module Email.

(** The part of [s] after the first [sep]; [None] when [s] has no [sep]. *)
Fixpoint after_first (sep : ascii) (s : string) : option string :=
  match s with
  | EmptyString => None
  | String c rest => if Ascii.eqb c sep then Some rest else after_first sep rest
  end.

(** The part of [s] before the first [sep]; all of [s] when it has no [sep]. *)
Fixpoint before_first (sep : ascii) (s : string) : string :=
  match s with
  | EmptyString => EmptyString
  | String c rest => if Ascii.eqb c sep then EmptyString else String c (before_first sep rest)
  end.

(** The rule for the domain as the specification words it: exactly
    gmail.com gives 5, exactly hotmail.com gives 3, otherwise a name ending
    in .edu gives 10, otherwise one ending in .gov gives 15, otherwise 2. *)
Definition domain_bonus (domain : string) : Z :=
  if String.eqb domain "gmail.com" then 5
  else if String.eqb domain "hotmail.com" then 3
  else if JsString.endsWith domain ".edu" then 10
  else if JsString.endsWith domain ".gov" then 15
  else 2.

Definition carol (address : string) : User :=
  {| id := "7"; name := "Carol"; email := address; lastLogin := None; preferences := None |}.

End Email.

(** ** Test doubles

    Collaborators as a test would inject them: a storage over a map whose
    operations can be told to throw, and a JSON codec that knows one user. *)

Module Mock.

Record MockStorage := {
  items : gmap string string;
  getItem_throws : bool;
  setItem_throws : bool
}.

#[global] Instance MockStorage_Storage : Storage MockStorage := {|
  getItem s key :=
    if getItem_throws s then (Thrown (Error "getItem failed"), s)
    else (Returned (items s !! key), s);
  setItem s key value :=
    if setItem_throws s then (Thrown (Error "setItem failed"), s)
    else (Returned (),
          {| items := <[key:=value]> (items s);
             getItem_throws := getItem_throws s; setItem_throws := setItem_throws s |});
  removeItem s key :=
    (Returned (),
     {| items := delete key (items s);
        getItem_throws := getItem_throws s; setItem_throws := setItem_throws s |})
|}.

Definition alice : User :=
  {| id := "1"; name := "Alice Liddell"; email := "alice@example.edu";
     lastLogin := Some {| getTime := Some 1000 |};
     preferences := Some {| theme := dark; notifications := true; language := "en" |} |}.

Definition bob : User :=
  {| id := "2"; name := "Bob"; email := "bob@gmail.com";
     lastLogin := None; preferences := None |}.

Definition alice_stored : StoredUser :=
  {| stored_id := "1"; stored_name := "Alice Liddell"; stored_email := "alice@example.edu";
     stored_lastLogin := Some "1970-01-01T00:00:01.000Z";
     stored_preferences := Some {| theme := dark; notifications := true; language := "en" |} |}.

(** The codec writes a user as a tag with the user's id, reads the tag of
    user 1 back as [alice_stored], and rejects every other text. *)
Definition mock_stringify (user : User) : Outcome string :=
  Returned ("json:" +:+ id user).

Definition mock_parse (data : string) : Outcome StoredUser :=
  if String.eqb data "json:1" then Returned alice_stored
  else Thrown (SyntaxError "Unexpected token").

Definition mock_new_Date (s : string) : Date :=
  if String.eqb s "1970-01-01T00:00:01.000Z" then {| getTime := Some 1000 |}
  else {| getTime := None |}.

#[global] Instance mock_Json : Json := {|
  JSON_stringify := mock_stringify;
  JSON_parse := mock_parse;
  new_Date := mock_new_Date;
  JSON_parse_empty := ex_intro _ (SyntaxError "Unexpected token") eq_refl
|}.

Definition empty_store : MockStorage :=
  {| items := ∅; getItem_throws := false; setItem_throws := false |}.

(** A store that holds a copy of user 1. *)
Definition store_with_alice : MockStorage :=
  {| items := {[ "user_1" := "json:1" ]}; getItem_throws := false; setItem_throws := false |}.

(** A store whose [setItem] throws. *)
Definition full_store : MockStorage :=
  {| items := ∅; getItem_throws := false; setItem_throws := true |}.

(** A world around a service with the given cache and flag. *)
Definition world_of (cache : gmap string User) (last : Z) (busy : bool)
    (store : MockStorage) (time : Z) : World MockStorage :=
  {| this := {| cachedUsers := cache; lastFetchTime := last; fetchInProgress := busy;
                cacheDuration := default_cacheDuration |};
     storage := store; logger := []; apiClient := []; clock := time |}.

(** The service holds user 1, fetched at time 0; it is now 1 s later. *)
Definition cached_world : World MockStorage :=
  world_of {[ "1" := alice ]} 0 false empty_store 1000.

(** The same, 70 s later: the cache duration has elapsed. *)
Definition stale_world : World MockStorage :=
  world_of {[ "1" := alice ]} 0 false empty_store 70000.

(** Nothing cached, nothing in flight, at time 1000. *)
Definition idle_world : World MockStorage :=
  world_of ∅ 0 false empty_store 1000.

(** The world when the reply to a GET issued at time 1000 arrives at time
    5000, over the given store. *)
Definition world_at_reply (store : MockStorage) : World MockStorage :=
  {| this := {| cachedUsers := ∅; lastFetchTime := 0; fetchInProgress := true;
                cacheDuration := default_cacheDuration |};
     storage := store;
     logger := [logged_log "Fetching user data" (data_id "1")];
     apiClient := [GET "/users/1"]; clock := 5000 |}.

(** A service constructed at time 1000 on which [getUserById("1")] was
    called: its GET is on its way. *)
Definition busy_system : System MockStorage :=
  {| world := {| this := {| cachedUsers := ∅; lastFetchTime := 0; fetchInProgress := true;
                            cacheDuration := default_cacheDuration |};
                 storage := empty_store;
                 logger := [logged_log "Fetching user data" (data_id "1")];
                 apiClient := [GET "/users/1"]; clock := 1000 |};
     tasks := [GetUserById (InFlight "1" 1000)] |}.

(** The same system 4 s later, the GET still on its way. *)
Definition waiting_system : System MockStorage :=
  {| world := world_at_reply empty_store;
     tasks := [GetUserById (InFlight "1" 1000)] |}.

(** The system after that GET was rejected and the store had no copy. *)
Definition failed_system : System MockStorage :=
  {| world := {| this := new_UserService default_cacheDuration;
                 storage := empty_store;
                 logger := [logged_log "Fetching user data" (data_id "1");
                            logged_error "Failed to fetch user" (Error "HTTP error 500")];
                 apiClient := [GET "/users/1"]; clock := 1000 |};
     tasks := [GetUserById (Settled (Thrown (Error "Failed to fetch user with ID 1")))] |}.

Definition dark_noisy : UserPreferences :=
  {| theme := dark; notifications := true; language := "en" |}.

Definition only_language (l : string) : PartialUserPreferences :=
  {| p_theme := None; p_notifications := None; p_language := Some l |}.

End Mock.

(** ** Words of the specification about the cache

    An entry for [id] exists and the time since the shared freshness clock is
    strictly below the cache duration. *)
Definition cache_fresh (t : UserService) (id : string) (now : Z) : Prop :=
  is_Some (cachedUsers t !! id) ∧ now - lastFetchTime t < cacheDuration t.

#[global] Instance cache_fresh_dec t id now : Decision (cache_fresh t id now).
Proof. unfold cache_fresh. apply _. Defined.

(** ** Words of the specification about the merge

    A set of preferences as the object it is: a finite map from field names
    to values. The shallow merge of layers lets a later layer win on every
    field it has. *)
Inductive PreferenceValue :=
  | theme_value (t : Theme)
  | flag_value (b : bool)
  | text_value (s : string).

Definition object_of (p : UserPreferences) : gmap string PreferenceValue :=
  {[ "theme" := theme_value (theme p);
     "notifications" := flag_value (notifications p);
     "language" := text_value (language p) ]}.

Definition field_of {A} (key : string) (value : A → PreferenceValue) (field : option A)
    : gmap string PreferenceValue :=
  match field with
  | Some a => {[ key := value a ]}
  | None => ∅
  end.

Definition object_of_partial (p : PartialUserPreferences) : gmap string PreferenceValue :=
  field_of "theme" theme_value (p_theme p)
  ∪ field_of "notifications" flag_value (p_notifications p)
  ∪ field_of "language" text_value (p_language p).

Definition shallow_merge (layers : list (gmap string PreferenceValue))
    : gmap string PreferenceValue :=
  foldl (λ merged layer, layer ∪ merged) ∅ layers.

(** ** Words of the specification about the in-flight flag

    The flag is set exactly when one GET is on its way, and no GET is on its
    way when it is clear. *)
Definition flag_guards_fetch {S} (s : System S) : Prop :=
  gets_in_flight (tasks s) = Nat.b2n (fetchInProgress (this (world s))).

(** ** More words about the score *)

(** How often a character occurs in a string. *)
Fixpoint count_char (c : ascii) (s : string) : nat :=
  match s with
  | EmptyString => 0%nat
  | String c' rest =>
      if Ascii.eqb c' c then S (count_char c rest) else count_char c rest
  end.

(** The bonus for the length of the name as the specification words it:
    above 15 characters 3, above 10 characters 2, above 5 characters 1. *)
Definition length_bonus (totalLength : Z) : Z :=
  if 15 <? totalLength then 3
  else if 10 <? totalLength then 2
  else if 5 <? totalLength then 1
  else 0.

(** The same user with another [lastLogin]. *)
Definition set_lastLogin (user : User) (d : option Date) : User :=
  {| id := id user; name := name user; email := email user;
     lastLogin := d; preferences := preferences user |}.

Definition login_at (user : User) (t : Z) : User :=
  set_lastLogin user (Some {| getTime := Some t |}).

(** ** More words about the merge *)

(** The partial update that has no field. *)
Definition no_update : PartialUserPreferences :=
  {| p_theme := None; p_notifications := None; p_language := None |}.

(** One partial update after another, as one: a field of the second wins. *)
Definition then_update (first second : PartialUserPreferences) : PartialUserPreferences :=
  {| p_theme := match p_theme second with Some t => Some t | None => p_theme first end;
     p_notifications :=
       match p_notifications second with Some b => Some b | None => p_notifications first end;
     p_language := match p_language second with Some l => Some l | None => p_language first end |}.

(** ** More test doubles *)

Module Fixtures.

(** A user with every bonus of the score at its highest. *)
Definition grace : User :=
  {| id := "9"; name := "Grace Brewster Murray Hopper USN"; email := "grace@navy.gov";
     lastLogin := Some {| getTime := Some 1000 |};
     preferences := Some {| theme := dark; notifications := true; language := "fr" |} |}.

(** The service holds user 1, fetched at time 0, and the cache duration has
    long elapsed: it is time 100000. A GET for user 2 was issued just now. *)
Definition stale_busy_world : World Mock.MockStorage :=
  {| this := {| cachedUsers := {[ "1" := Mock.alice ]}; lastFetchTime := 0;
                fetchInProgress := true; cacheDuration := default_cacheDuration |};
     storage := Mock.empty_store; logger := []; apiClient := [GET "/users/2"];
     clock := 100000 |}.

(** The system of [Mock.waiting_system] after its GET was fulfilled with
    user 1. *)
Definition settled_system : System Mock.MockStorage :=
  {| world := {| this := {| cachedUsers := {[ "1" := Mock.alice ]}; lastFetchTime := 1000;
                            fetchInProgress := false;
                            cacheDuration := default_cacheDuration |};
                 storage := {| Mock.items := {[ "user_1" := "json:1" ]};
                               Mock.getItem_throws := false;
                               Mock.setItem_throws := false |};
                 logger := [logged_log "Fetching user data" (data_id "1")];
                 apiClient := [GET "/users/1"]; clock := 5000 |};
     tasks := [GetUserById (Settled (Returned Mock.alice))] |}.

End Fixtures.

(** ** More words about calls in progress *)

(** A task that waits for a GET began its attempt between time 0 and
    [time]. *)
Definition started_by (time : Z) (t : Task) : Prop :=
  match t with
  | GetUserById (InFlight _ now) | UpdateFetching _ _ (InFlight _ now) => 0 ≤ now ≤ time
  | _ => True
  end.



(** * HardToTest (src/hardToTest.ts): the listeners and the retrying fetch

    Of this file the observer list of the class [HardToTest] and the function
    [fetchUserDataWithRetry] are embedded. Function objects are values of a
    type with decidable equality, which stands for their identity ([!==]); a
    callback acts on an environment of its own and may throw, and does not
    call back into the object that notifies it. *)

Module HardToTest.

Inductive ConsoleEntry :=
  | console_log (message : string)
  | console_error (message : string) (error : JsError).

(** The text of an integer in a template literal. *)
Definition Number_toString (n : Z) : string :=
  NilZero.string_of_int (Z.to_int n).

Section Listeners.
Context {Function Data Env : Type} `{EqDecision Function}.

(** [callback(eventType, data)]. *)
Variable call : Function → string → Data → Env → Outcome unit * Env.

Record Observed := {
  listeners : list Function;                  (* [this._listeners] *)
  console : list ConsoleEntry;                (* what the console was given, oldest first *)
  called : list (Function * string * Data);   (* the calls made to callbacks, oldest first *)
  env : Env                                   (* what the callbacks act on *)
}.

(** [addListener]: [this._listeners.push(callback)]. *)
Definition addListener (callback : Function) (o : Observed) : Observed :=
  {| listeners := listeners o ++ [callback]; console := console o;
     called := called o; env := env o |}.

(** [removeListener]: [this._listeners.filter(cb => cb !== callback)]. *)
Definition removeListener (callback : Function) (o : Observed) : Observed :=
  {| listeners := List.filter (λ cb, negb (bool_decide (cb = callback))) (listeners o);
     console := console o; called := called o; env := env o |}.

(** The body of the [forEach] of [notifyListeners]: the call in its [try],
    and the [catch] that tells the console. *)
Definition notify_one (eventType : string) (data : Data) (o : Observed)
    (callback : Function) : Observed :=
  match call callback eventType data (env o) with
  | (Returned _, env') =>
      {| listeners := listeners o; console := console o;
         called := called o ++ [(callback, eventType, data)]; env := env' |}
  | (Thrown e, env') =>
      {| listeners := listeners o;
         console := console o ++ [console_error "Listener error" e];
         called := called o ++ [(callback, eventType, data)]; env := env' |}
  end.

(** [notifyListeners]. *)
Definition notifyListeners (eventType : string) (data : Data) (o : Observed) : Observed :=
  foldl (notify_one eventType data) o (listeners o).

End Listeners.

(** What [fetch] resolves with, as far as the code looks at it. *)
Record Response (A : Type) := {
  ok : bool;
  status : Z;
  json : Outcome A    (* what [await response.json()] gives *)
}.
Arguments ok {A} r.
Arguments status {A} r.
Arguments json {A} r.

(** The variables a call of [fetchUserDataWithRetry] holds, and what it has
    done so far. Of the delay of a timer the part [Math.pow(2, retryCount) *
    500] is kept; [Math.random() * 500] adds less than 500 to it. *)
Record Retrying := {
  retryCount : Z;
  fetched : list string;        (* the URLs given to [fetch], oldest first *)
  logged : list ConsoleEntry;
  timers : list Z
}.

Definition default_maxRetries : Z := 3.

Section Retry.
Context {A : Type}.
Variables (userId : string) (maxRetries : Z).

(** The [try] block of [attemptFetch] once [fetch] has settled. *)
Definition received (reply : Outcome (Response A)) : Outcome A :=
  match reply with
  | Thrown e => Thrown e
  | Returned response =>
      if negb (ok response)
      then Thrown (Error ("HTTP error! status: " +:+ Number_toString (status response)))
      else json response
  end.

(** [attemptFetch], given how the fetches to come settle, in order. [None]:
    the call is still waiting when these are used up. *)
Fixpoint attemptFetch (replies : list (Outcome (Response A))) (st : Retrying)
    : option (Outcome A * Retrying) :=
  match replies with
  | [] => None
  | reply :: later =>
      let st :=
        {| retryCount := retryCount st;
           fetched := fetched st ++ ["https://api.example.com/users/" +:+ userId];
           logged := logged st; timers := timers st |} in
      match received reply with
      | Returned data => Some (Returned data, st)
      | Thrown error =>
          if retryCount st <? maxRetries then
            let retryCount := retryCount st + 1 in
            attemptFetch later
              {| retryCount := retryCount;
                 fetched := fetched st;
                 logged := logged st
                   ++ [console_log ("Retry attempt " +:+ Number_toString retryCount
                                    +:+ " for user " +:+ userId)];
                 timers := timers st ++ [2 ^ retryCount * 500] |}
          else Some (Thrown error, st)
      end
  end.

Definition fetchUserDataWithRetry (replies : list (Outcome (Response A)))
    : option (Outcome A * Retrying) :=
  attemptFetch replies {| retryCount := 0; fetched := []; logged := []; timers := [] |}.

End Retry.

(** The message and the timer of the retry that makes [retryCount] what it
    is given here. *)
Definition retry_message (userId : string) (retryCount : Z) : ConsoleEntry :=
  console_log ("Retry attempt " +:+ Number_toString retryCount +:+ " for user " +:+ userId).

Definition backoff (retryCount : Z) : Z := 2 ^ retryCount * 500.

(** The variables after [k] more attempts that failed and were retried. *)
Definition after_failures (userId : string) (k : nat) (st : Retrying) : Retrying :=
  {| retryCount := retryCount st + Z.of_nat k;
     fetched := fetched st ++ replicate k ("https://api.example.com/users/" +:+ userId);
     logged := logged st
       ++ map (λ i, retry_message userId (retryCount st + 1 + Z.of_nat i)) (seq 0 k);
     timers := timers st ++ map (λ i, backoff (retryCount st + 1 + Z.of_nat i)) (seq 0 k) |}.

(** The variables once the next fetch has been sent. *)
Definition after_fetch (userId : string) (st : Retrying) : Retrying :=
  {| retryCount := retryCount st;
     fetched := fetched st ++ ["https://api.example.com/users/" +:+ userId];
     logged := logged st; timers := timers st |}.

Definition fresh_call : Retrying :=
  {| retryCount := 0; fetched := []; logged := []; timers := [] |}.

(** An attempt that this reply makes fail. *)
Definition fails {A} (reply : Outcome (Response A)) : Prop :=
  ∃ error, received reply = Thrown error.

(** Replies for the examples. *)
Definition not_found : Outcome (Response string) :=
  Returned {| ok := false; status := 404; json := Returned "" |}.

Definition unavailable : Outcome (Response string) :=
  Returned {| ok := false; status := 503; json := Returned "" |}.

Definition found (body : string) : Outcome (Response string) :=
  Returned {| ok := true; status := 200; json := Returned body |}.

(** Three callbacks: one counts its calls, one always throws, one counts
    twice. The environment is the count. *)
Inductive Callback := counting | throwing | doubling.

#[global] Instance Callback_eq_dec : EqDecision Callback.
Proof. solve_decision. Defined.

Definition call_callback (cb : Callback) (eventType : string) (data : Z) (count : Z)
    : Outcome unit * Z :=
  match cb with
  | counting => (Returned (), count + 1)
  | throwing => (Thrown (Error "listener failed"), count)
  | doubling => (Returned (), count + 2)
  end.

Definition observed (ls : list Callback) : @Observed Callback Z Z :=
  {| listeners := ls; console := []; called := []; env := 0 |}.

End HardToTest.
(** * Properties *)

(** ** The score *)

Example score_spec_example :
  calculateUserScore 1000
    (Some {| id := "1"; name := "Jo Lee"; email := "a@gmail.com";
             lastLogin := Some {| getTime := Some 1000 |}; preferences := None |})
  = Returned 40.
Proof. reflexivity. Qed.

(** ** The email factor of the score *)

Module EmailFacts.
Import Email.

Lemma split_head sep s : head (JsString.split sep s) = Some (before_first sep s).
Proof.
  induction s as [|c rest IH]; simpl; [reflexivity|].
  destruct (Ascii.eqb c sep); [reflexivity|].
  destruct (JsString.split sep rest) as [|piece pieces]; simpl in *.
  - discriminate IH.
  - injection IH as ->. reflexivity.
Qed.

(** The second piece of [s.split(sep)] is what lies between the first
    [sep] and the next one (or the end of [s]). *)
Lemma split_second sep s :
  JsString.split sep s !! 1%nat = before_first sep <$> after_first sep s.
Proof.
  induction s as [|c rest IH]; simpl; [reflexivity|].
  destruct (Ascii.eqb c sep) eqn:E.
  - pose proof (split_head sep rest) as H.
    destruct (JsString.split sep rest); simpl in *; congruence.
  - pose proof (split_head sep rest) as H.
    destruct (JsString.split sep rest) as [|piece pieces]; simpl in *; [discriminate H|].
    exact IH.
Qed.

Lemma before_first_none sep s : after_first sep s = None → before_first sep s = s.
Proof.
  induction s as [|c rest IH]; simpl; [reflexivity|].
  destruct (Ascii.eqb c sep); [discriminate|].
  intros H. rewrite IH; auto.
Qed.

Lemma truthy_after_first sep s d : after_first sep s = Some d → JsString.truthy s = true.
Proof. destruct s; simpl; [discriminate | reflexivity]. Qed.

(** With the domain defined, the branches of [email_factor] are the rule. *)
Lemma email_factor_domain user score d :
  JsString.truthy (email user) = true →
  JsString.split "@" (email user) !! 1%nat = Some d →
  email_factor user score = Returned (score + domain_bonus d).
Proof.
  intros Ht Hd. unfold email_factor, domain_bonus. rewrite Ht, Hd. simpl.
  destruct (String.eqb d "gmail.com"); [reflexivity|].
  destruct (String.eqb d "hotmail.com"); [reflexivity|].
  destruct (JsString.endsWith d ".edu"); [reflexivity|].
  destruct (JsString.endsWith d ".gov"); reflexivity.
Qed.

End EmailFacts.

(** C9, as amended. For every user whose email contains an at sign followed
    by a non-empty rest, the email factor adds the rule's bonus for the piece
    between the first at sign and the next one (or the end of the address),
    and the score is built on that sum. *)
Theorem email_factor_second_piece (now : Z) (user : User) (score : Z) (rest : string) :
  Email.after_first "@" (email user) = Some rest →
  rest ≠ "" →
  let domain := Email.before_first "@" rest in
  email_factor user score = Returned (score + Email.domain_bonus domain)
  ∧ calculateUserScore now (Some user)
    = Returned (Math_round (preferences_factor user (name_factor user
                  (login_factor now user (10 + Email.domain_bonus domain))))).
Proof.
  intros Hrest _ domain.
  assert (email_factor user 10 = Returned (10 + Email.domain_bonus domain)
          ∧ email_factor user score = Returned (score + Email.domain_bonus domain)) as [H10 Hs].
  { split; apply EmailFacts.email_factor_domain;
      eauto using EmailFacts.truthy_after_first;
      rewrite EmailFacts.split_second, Hrest; reflexivity. }
  split; [exact Hs|].
  unfold calculateUserScore. rewrite H10. reflexivity.
Qed.

Lemma email_factor_second_piece_witness :
  email_factor (Email.carol "carol@mit.edu@relay") 10 = Returned 20.
Proof.
  exact (proj1 (email_factor_second_piece 0 (Email.carol "carol@mit.edu@relay") 10
                  "mit.edu@relay" eq_refl ltac:(discriminate))).
Defined.

(** For an address with one at sign the piece is all that follows it, and
    the sentence of the specification holds as written. *)
Lemma email_factor_single_at (user : User) (score : Z) (domain : string) :
  Email.after_first "@" (email user) = Some domain →
  Email.after_first "@" domain = None →
  email_factor user score = Returned (score + Email.domain_bonus domain).
Proof.
  intros H1 H2. apply EmailFacts.email_factor_domain.
  - eauto using EmailFacts.truthy_after_first.
  - rewrite EmailFacts.split_second, H1. simpl. by rewrite EmailFacts.before_first_none.
Qed.

(** C9 as stated fails: for a@gmail.com@x the text after the first at sign is
    gmail.com@x, for which the rule gives 2, while the code adds 5. *)
Lemma email_factor_not_after_first_at :
  ¬ (∀ (user : User) (score : Z) (rest : string),
       Email.after_first "@" (email user) = Some rest →
       rest ≠ "" →
       email_factor user score = Returned (score + Email.domain_bonus rest)).
Proof.
  intros H.
  specialize (H (Email.carol "a@gmail.com@x") 10 "gmail.com@x" eq_refl ltac:(discriminate)).
  vm_compute in H. discriminate H.
Qed.

(** C10. For a user whose email is not empty and has no at sign,
    [calculateUserScore] throws a [TypeError] and returns no number. *)
Theorem calculateUserScore_throws_without_at (now : Z) (user : User) :
  email user ≠ "" →
  Email.after_first "@" (email user) = None →
  ∃ message, calculateUserScore now (Some user) = Thrown (TypeError message)
             ∧ ∀ n : Z, calculateUserScore now (Some user) ≠ Returned n.
Proof.
  intros Hne Hno.
  assert (email_factor user 10
          = Thrown (TypeError "Cannot read properties of undefined (reading 'endsWith')")) as H.
  { unfold email_factor. rewrite EmailFacts.split_second, Hno. simpl.
    destruct (email user); [congruence | reflexivity]. }
  eexists. unfold calculateUserScore. rewrite H. split; [reflexivity | discriminate].
Qed.

Lemma calculateUserScore_throws_without_at_witness :
  ∃ message, calculateUserScore 0 (Some (Email.carol "carol.example.com")) = Thrown (TypeError message)
             ∧ ∀ n : Z, calculateUserScore 0 (Some (Email.carol "carol.example.com")) ≠ Returned n.
Proof.
  exact (calculateUserScore_throws_without_at 0 (Email.carol "carol.example.com")
           ltac:(discriminate) eq_refl).
Defined.

(** ** The stretches of [getUserById] *)

(** Unfolds the monad so that a stretch becomes a term over the world. *)
Ltac sync :=
  unfold mbind, mret, Sync_bind, Sync_ret, try_finally, try_catch, throw,
    awaited, builtin, Date_now, get_this, set_this, logger_log, logger_error,
    apiClient_send, storage_getItem, storage_setItem, storage_op in *;
  cbn [fst snd this storage logger apiClient clock
       cachedUsers lastFetchTime fetchInProgress cacheDuration
       set_cachedUsers set_lastFetchTime set_fetchInProgress] in *.

Section Stretches.
Context {S : Type} `{!Storage S} `{!Json}.
Implicit Types (w : World S) (id : string) (now : Z).

(** The three ways the first stretch ends, by what it reads. *)
Lemma getUserById_start_hit w id cachedUser :
  cachedUsers (this w) !! id = Some cachedUser →
  clock w - lastFetchTime (this w) < cacheDuration (this w) →
  getUserById_start id w
  = (Returned (CacheHit cachedUser),
     {| this := this w; storage := storage w;
        logger := logger w ++ [logged_log "Cache hit for user" (data_id id)];
        apiClient := apiClient w; clock := clock w |}).
Proof.
  intros Hc Hf. unfold getUserById_start. sync. rewrite Hc.
  apply Z.ltb_lt in Hf. rewrite Hf. reflexivity.
Qed.

Lemma getUserById_start_busy w id :
  ¬ cache_fresh (this w) id (clock w) →
  fetchInProgress (this w) = true →
  getUserById_start id w = (Returned (RetryAfter 100), w).
Proof.
  intros Hm Hb. unfold getUserById_start. sync.
  destruct (cachedUsers (this w) !! id) as [u|] eqn:Hc;
    [destruct (clock w - lastFetchTime (this w) <? cacheDuration (this w)) eqn:Hf|].
  - exfalso. apply Hm. split; [rewrite Hc; eauto | by apply Z.ltb_lt].
  - rewrite Hb. reflexivity.
  - rewrite Hb. reflexivity.
Qed.

Lemma getUserById_start_fetch w id :
  ¬ cache_fresh (this w) id (clock w) →
  fetchInProgress (this w) = false →
  getUserById_start id w
  = (Returned (AwaitingGet id (clock w)),
     {| this := set_fetchInProgress true (this w); storage := storage w;
        logger := logger w ++ [logged_log "Fetching user data" (data_id id)];
        apiClient := apiClient w ++ [GET ("/users/" +:+ id)]; clock := clock w |}).
Proof.
  intros Hm Hb. unfold getUserById_start. sync.
  destruct (cachedUsers (this w) !! id) as [u|] eqn:Hc;
    [destruct (clock w - lastFetchTime (this w) <? cacheDuration (this w)) eqn:Hf|].
  - exfalso. apply Hm. split; [rewrite Hc; eauto | by apply Z.ltb_lt].
  - rewrite Hb. reflexivity.
  - rewrite Hb. reflexivity.
Qed.

Lemma getUserById_start_awaiting w id id' now :
  (getUserById_start id w).1 = Returned (AwaitingGet id' now) →
  id' = id ∧ now = clock w ∧ fetchInProgress (this w) = false
  ∧ ¬ cache_fresh (this w) id (clock w).
Proof.
  destruct (decide (cache_fresh (this w) id (clock w))) as [[[u Hu] Hf]|Hm].
  - rewrite (getUserById_start_hit w id u Hu Hf). discriminate.
  - destruct (fetchInProgress (this w)) eqn:Hb.
    + rewrite (getUserById_start_busy w id Hm Hb). discriminate.
    + rewrite (getUserById_start_fetch w id Hm Hb). simpl. intros [= <- <-]. auto.
Qed.

(** C1. The first stretch of [getUserById(id)] returns the cached user and
    issues no request when an entry for [id] exists and the time since the
    freshness clock is below the cache duration, and it returns from the
    cache in no other case; when that does not hold and no fetch is in
    flight, it issues GET /users/{id}. *)
Theorem getUserById_cache_check w id :
  let r := getUserById_start id w in
  (cache_fresh (this w) id (clock w) →
     ∃ cachedUser, cachedUsers (this w) !! id = Some cachedUser
                   ∧ r.1 = Returned (CacheHit cachedUser)
                   ∧ apiClient r.2 = apiClient w)
  ∧ ((∃ user, r.1 = Returned (CacheHit user)) → cache_fresh (this w) id (clock w))
  ∧ (¬ cache_fresh (this w) id (clock w) →
     fetchInProgress (this w) = false →
     r.1 = Returned (AwaitingGet id (clock w))
     ∧ apiClient r.2 = (apiClient w ++ [GET ("/users/" +:+ id)])%list).
Proof.
  intros r. subst r. split; [|split].
  - intros [[u Hu] Hf]. exists u. rewrite (getUserById_start_hit w id u Hu Hf). auto.
  - intros [u Hr]. destruct (decide (cache_fresh (this w) id (clock w))) as [|Hm]; [done|].
    exfalso. destruct (fetchInProgress (this w)) eqn:Hb.
    + rewrite (getUserById_start_busy w id Hm Hb) in Hr. discriminate.
    + rewrite (getUserById_start_fetch w id Hm Hb) in Hr. discriminate.
  - intros Hm Hb. rewrite (getUserById_start_fetch w id Hm Hb). auto.
Qed.

(** What [saveUserToStorage] does, by what the codec and the store do. *)
Lemma saveUserToStorage_eq w user :
  saveUserToStorage user w
  = match JSON_stringify user with
    | Returned value =>
        match setItem (storage w) (user_key user) value with
        | (Returned _, s') =>
            (Returned (),
             {| this := this w; storage := s'; logger := logger w;
                apiClient := apiClient w; clock := clock w |})
        | (Thrown e, s') =>
            (Returned (),
             {| this := this w; storage := s';
                logger := logger w ++ [logged_error "Failed to save user to storage" e];
                apiClient := apiClient w; clock := clock w |})
        end
    | Thrown e =>
        (Returned (),
         {| this := this w; storage := storage w;
            logger := logger w ++ [logged_error "Failed to save user to storage" e];
            apiClient := apiClient w; clock := clock w |})
    end.
Proof.
  unfold saveUserToStorage. sync.
  destruct (JSON_stringify user) as [value|e]; [|reflexivity].
  destruct (setItem (storage w) _ value) as [[[]|e] s']; reflexivity.
Qed.

Lemma saveUserToStorage_returns w user :
  (saveUserToStorage user w).1 = Returned ()
  ∧ this (saveUserToStorage user w).2 = this w
  ∧ apiClient (saveUserToStorage user w).2 = apiClient w
  ∧ clock (saveUserToStorage user w).2 = clock w.
Proof.
  rewrite saveUserToStorage_eq.
  destruct (JSON_stringify user) as [value|e]; [|done].
  destruct (setItem (storage w) _ value) as [[[]|e] s']; done.
Qed.

(** [getUserFromStorage] returns a user or [null], never throws, and leaves
    the service as it is. *)
Lemma getUserFromStorage_eq w id :
  let read := getItem (storage w) ("user_" +:+ id) in
  (getUserFromStorage id w).1
  = Returned match read.1 with
             | Returned (Some data) =>
                 if JsString.truthy data
                 then match JSON_parse data with
                      | Returned user => Some (rehydrate user)
                      | Thrown _ => None
                      end
                 else None
             | _ => None
             end
  ∧ this (getUserFromStorage id w).2 = this w
  ∧ apiClient (getUserFromStorage id w).2 = apiClient w.
Proof.
  unfold getUserFromStorage. sync.
  destruct (getItem (storage w) _) as [[[data|]|e] s']; simpl; [|done|done].
  destruct (JsString.truthy data); simpl; [|done].
  destruct (JSON_parse data); done.
Qed.

Lemma JSON_parse_truthy data user :
  JSON_parse data = Returned user → JsString.truthy data = true.
Proof.
  destruct data; [|reflexivity].
  destruct JSON_parse_empty as [e He]. congruence.
Qed.

(** The [catch] path of [getUserById], as a whole. *)
Lemma getUserById_resume_rejected w id now error :
  let r := getUserById_resume id now (Thrown error) w in
  r.1 = match (getUserFromStorage id
                 {| this := this w; storage := storage w;
                    logger := logger w ++ [logged_error "Failed to fetch user" error];
                    apiClient := apiClient w; clock := clock w |}).1 with
        | Returned (Some storedUser) => Returned storedUser
        | _ => Thrown (Error ("Failed to fetch user with ID " +:+ id))
        end
  ∧ this r.2 = set_fetchInProgress false (this w)
  ∧ apiClient r.2 = apiClient w.
Proof.
  intros r. subst r. unfold getUserById_resume. sync.
  match goal with |- context [getUserFromStorage id ?w1] =>
    pose proof (getUserFromStorage_eq w1 id) as (H1 & H2 & H3);
    destruct (getUserFromStorage id w1) as [[[u|]|e] w2] end;
    simpl in *; try discriminate; rewrite ?H2; auto.
Qed.

(** C2. When the GET of [getUserById(id)] is rejected: if the store returns a
    text for the key of [id] and the text parses, the call returns the parsed
    user with a non-empty stored [lastLogin] made a [Date] again; if the store
    has nothing for the key, or reading throws, or parsing throws, the call
    throws the error that names [id]. The cache is the same afterwards in
    every case. *)
Theorem getUserById_fallback w id now error :
  let r := getUserById_resume id now (Thrown error) w in
  let read := (getItem (storage w) ("user_" +:+ id)).1 in
  cachedUsers (this r.2) = cachedUsers (this w)
  ∧ (∀ data user,
       read = Returned (Some data) → JSON_parse data = Returned user →
       r.1 = Returned (rehydrate user)
       ∧ ∀ s, stored_lastLogin user = Some s → s ≠ "" →
              lastLogin (rehydrate user) = Some (new_Date s))
  ∧ (read = Returned None
     ∨ (∃ e, read = Thrown e)
     ∨ (∃ data e, read = Returned (Some data) ∧ JSON_parse data = Thrown e) →
     r.1 = Thrown (Error ("Failed to fetch user with ID " +:+ id))).
Proof.
  intros r read.
  destruct (getUserById_resume_rejected w id now error) as (Hr & Ht & _).
  fold r in Hr, Ht.
  match type of Hr with context [getUserFromStorage id ?w1] =>
    destruct (getUserFromStorage_eq w1 id) as (Hs & _); simpl in Hs; fold read in Hs;
    rewrite Hs in Hr; clear Hs end.
  split; [by rewrite Ht|]. split.
  - intros data user Hread Hparse. split.
    + rewrite Hr, Hread, (JSON_parse_truthy _ _ Hparse), Hparse. reflexivity.
    + intros s Hs Hne. unfold rehydrate. simpl. rewrite Hs.
      destruct s; [done | reflexivity].
  - intros [Hread | [[e Hread] | (data & e & Hread & Hparse)]]; rewrite Hr, Hread; try done.
    rewrite Hparse. by destruct (JsString.truthy data).
Qed.

(** C4, as amended. When the GET of [getUserById(id)] is fulfilled with a
    user, the call returns that user, the cache holds it under [id], the
    freshness clock is the time read at the start of the attempt (before the
    request was issued), the flag is clear, and the store is what [setItem]
    left when given the user's key and text (untouched if the text could not
    be made). *)
Theorem getUserById_success w0 w id id' now user :
  (getUserById_start id w0).1 = Returned (AwaitingGet id' now) →
  let r := getUserById_resume id' now (Returned user) w in
  id' = id
  ∧ r.1 = Returned user
  ∧ cachedUsers (this r.2) = <[id := user]> (cachedUsers (this w))
  ∧ lastFetchTime (this r.2) = clock w0
  ∧ fetchInProgress (this r.2) = false
  ∧ storage r.2 = match JSON_stringify user with
                  | Returned value => (setItem (storage w) (user_key user) value).2
                  | Thrown _ => storage w
                  end.
Proof.
  intros Hstart r. apply getUserById_start_awaiting in Hstart as (-> & -> & _).
  subst r. unfold getUserById_resume. sync. rewrite saveUserToStorage_eq. simpl.
  destruct (JSON_stringify user) as [value|e]; [|done].
  destruct (setItem (storage w) _ value) as [[[]|e] s']; done.
Qed.

(** On every path the second stretch ends with the flag clear. *)
Lemma getUserById_resume_clears_flag w id now reply :
  fetchInProgress (this (getUserById_resume id now reply w).2) = false.
Proof.
  destruct reply as [user|error].
  - unfold getUserById_resume. sync. rewrite saveUserToStorage_eq. simpl.
    destruct (JSON_stringify user) as [value|e]; [|done].
    destruct (setItem (storage w) _ value) as [[[]|e] s']; done.
  - destruct (getUserById_resume_rejected w id now error) as (_ & Ht & _).
    by rewrite Ht.
Qed.

(** ** The stretches of [updateUserPreferences] *)

Lemma updatedPreferences_object user p :
  object_of (updatedPreferences user p)
  = shallow_merge [object_of default_preferences;
                   from_option object_of ∅ (preferences user);
                   object_of_partial p].
Proof.
  apply map_eq. intros k.
  unfold updatedPreferences, shallow_merge, object_of_partial, object_of, field_of,
    spread_partial, spread.
  destruct (preferences user) as [[t0 n0 l0]|], p as [[t|] [b|] [l|]]; simpl;
    rewrite ?lookup_union, ?lookup_insert, ?lookup_singleton, ?lookup_empty;
    repeat case_decide; simplify_eq; done.
Qed.

(** C6. The preferences sent with the POST are the shallow merge of the
    defaults, then the fetched user's preferences, then the partial update;
    when the POST is fulfilled, the call returns the server's user with its
    preferences replaced by that merge, whatever preferences the server sent,
    and the cache holds that user under [userId]. *)
Theorem updateUserPreferences_merge_wins w w' userId p fetched reply :
  let updated := updatedPreferences fetched p in
  let sent := updateUserPreferences_merge userId p (Returned fetched) w in
  let r := updateUserPreferences_resume userId p updated (Returned reply) w' in
  object_of updated
  = shallow_merge [object_of default_preferences;
                   from_option object_of ∅ (preferences fetched);
                   object_of_partial p]
  ∧ sent.1 = Returned updated
  ∧ apiClient sent.2
    = (apiClient w ++ [POST ("/users/" +:+ userId +:+ "/preferences") updated])%list
  ∧ r.1 = Returned (set_preferences reply updated)
  ∧ preferences (set_preferences reply updated) = Some updated
  ∧ cachedUsers (this r.2) !! userId = Some (set_preferences reply updated).
Proof.
  intros updated sent r. split; [apply updatedPreferences_object|].
  split; [reflexivity|]. split; [reflexivity|].
  subst r. unfold updateUserPreferences_resume. sync.
  rewrite saveUserToStorage_eq. simpl.
  destruct (JSON_stringify _) as [value|e]; simpl.
  - destruct (setItem (storage w') _ value) as [[[]|e] s']; simpl;
      rewrite lookup_insert_eq; done.
  - rewrite lookup_insert_eq; done.
Qed.

(** C7. Whether [getUserById] fails or the POST is rejected,
    [updateUserPreferences] throws the same error, which names [userId]. The
    stretch that meets the rejected POST leaves the service (its cache
    included) and the store as they were and issues no request; the stretch
    before it only sends the POST; and the call begins as [getUserById(userId)]
    does, so that an update whose POST fails leaves the cache and the store
    as that [getUserById] left them. *)
Theorem updateUserPreferences_failure w userId p updated error (s : System S) :
  let failure := Error ("Failed to update preferences for user " +:+ userId) in
  let at_fetch := updateUserPreferences_merge userId p (Thrown error) w in
  let at_post := updateUserPreferences_resume userId p updated (Thrown error) w in
  (at_fetch.1 = Thrown failure ∧ at_post.1 = Thrown failure)
  ∧ (this at_post.2 = this w ∧ storage at_post.2 = storage w
     ∧ apiClient at_post.2 = apiClient w)
  ∧ (this at_fetch.2 = this w ∧ storage at_fetch.2 = storage w
     ∧ apiClient at_fetch.2 = apiClient w)
  ∧ (∀ fetched,
       let sent := updateUserPreferences_merge userId p (Returned fetched) w in
       this sent.2 = this w ∧ storage sent.2 = storage w)
  ∧ world <$> step (call_updateUserPreferences userId p) s
    = world <$> step (call_getUserById userId) s.
Proof.
  intros failure at_fetch at_post.
  split; [done|]. split; [done|]. split; [done|]. split; [done|].
  simpl. destruct (launch userId (world s)) as [f w']. reflexivity.
Qed.

(** C8. When the GET, or the POST, is fulfilled, the call returns the user
    whatever the store does; if [setItem] throws, the error goes to the
    logger and the cache is written all the same. *)
Theorem storage_failure_swallowed w id now userId p updated user :
  let fetched := getUserById_resume id now (Returned user) w in
  let user' := set_preferences user updated in
  let posted := updateUserPreferences_resume userId p updated (Returned user) w in
  fetched.1 = Returned user
  ∧ posted.1 = Returned user'
  ∧ (∀ value e,
       JSON_stringify user = Returned value →
       (setItem (storage w) (user_key user) value).1 = Thrown e →
       logger fetched.2
       = (logger w ++ [logged_error "Failed to save user to storage" e])%list
       ∧ cachedUsers (this fetched.2) = <[id := user]> (cachedUsers (this w)))
  ∧ (∀ value e,
       JSON_stringify user' = Returned value →
       (setItem (storage w) (user_key user') value).1 = Thrown e →
       logger posted.2
       = (logger w ++ [logged_error "Failed to save user to storage" e;
                       logged_log "Updated user preferences" (data_update userId p)])%list
       ∧ cachedUsers (this posted.2) = <[userId := user']> (cachedUsers (this w))).
Proof.
  intros fetched user' posted. subst fetched posted.
  unfold getUserById_resume, updateUserPreferences_resume. sync.
  rewrite !saveUserToStorage_eq. simpl. fold user'.
  split; [|split; [|split]].
  - destruct (JSON_stringify user) as [value|e]; [|done].
    destruct (setItem (storage w) _ value) as [[[]|e] s']; done.
  - destruct (JSON_stringify user') as [value|e]; [|done].
    destruct (setItem (storage w) _ value) as [[[]|e] s']; done.
  - intros value e Hjson Hset. rewrite Hjson.
    destruct (setItem (storage w) _ value) as [[[]|e'] s']; simpl in *; [discriminate|].
    injection Hset as ->. done.
  - intros value e Hjson Hset. rewrite Hjson.
    destruct (setItem (storage w) _ value) as [[[]|e'] s']; simpl in *; [discriminate|].
    injection Hset as ->. rewrite <- app_assoc. done.
Qed.

End Stretches.

(** ** Calls in progress: the flag and the GETs on their way *)

Section Flag.
Context {S : Type} `{!Storage S} `{!Json}.
Implicit Types (w : World S) (s : System S) (ts : list Task).

Lemma gets_in_flight_app ts t :
  gets_in_flight (ts ++ [t]) = (gets_in_flight ts + Nat.b2n (in_flight t))%nat.
Proof.
  unfold gets_in_flight. rewrite List.filter_app, length_app. simpl.
  destruct (in_flight t); reflexivity.
Qed.

Lemma gets_in_flight_insert ts i t t' :
  ts !! i = Some t →
  (gets_in_flight (<[i:=t']> ts) + Nat.b2n (in_flight t)
   = gets_in_flight ts + Nat.b2n (in_flight t'))%nat.
Proof.
  unfold gets_in_flight. revert i.
  induction ts as [|t0 ts IH]; intros [|i] Hi; simpl in *; try discriminate.
  - injection Hi as ->. destruct (in_flight t), (in_flight t'); simpl; lia.
  - specialize (IH i Hi). destruct (in_flight t0); simpl; lia.
Qed.

(** Running [getUserById] from its first line puts a GET on its way exactly
    when it sets the flag, and never while the flag is set. *)
Lemma launch_flag w id :
  let '(f, w') := launch id w in
  let sent := in_flight (GetUserById f) in
  fetchInProgress (this w') = fetchInProgress (this w) || sent
  ∧ (fetchInProgress (this w) = true → sent = false).
Proof.
  unfold launch.
  destruct (decide (cache_fresh (this w) id (clock w))) as [[[u Hu] Hf]|Hm].
  - rewrite (getUserById_start_hit w id u Hu Hf). simpl. by rewrite orb_false_r.
  - destruct (fetchInProgress (this w)) eqn:Hb.
    + rewrite (getUserById_start_busy w id Hm Hb). simpl. by rewrite Hb.
    + rewrite (getUserById_start_fetch w id Hm Hb). simpl. done.
Qed.

Lemma updateUserPreferences_merge_this w userId p fetched :
  this (updateUserPreferences_merge userId p fetched w).2 = this w.
Proof. destruct fetched; reflexivity. Qed.

Lemma updateUserPreferences_resume_flag w userId p updated reply :
  fetchInProgress (this (updateUserPreferences_resume userId p updated reply w).2)
  = fetchInProgress (this w).
Proof.
  destruct reply as [user|e]; [|reflexivity].
  unfold updateUserPreferences_resume. sync. rewrite saveUserToStorage_eq. simpl.
  destruct (JSON_stringify _) as [value|e]; [|done].
  destruct (setItem (storage w) _ value) as [[[]|e] s']; done.
Qed.

Lemma on_task_Some i go s s' :
  on_task i go s = Some s' →
  ∃ t t', tasks s !! i = Some t
          ∧ go t (world s) = Some (t', world s')
          ∧ tasks s' = <[i:=t']> (tasks s).
Proof.
  unfold on_task. destruct (tasks s !! i) as [t|]; [|discriminate].
  destruct (go t (world s)) as [[t' w']|] eqn:Hgo; [|discriminate].
  intros [= <-]. exists t, t'. auto.
Qed.

Lemma on_fetch_Some go t w t' w' :
  on_fetch go t w = Some (t', w') →
  ∃ f f', go f w = Some (f', w')
          ∧ in_flight t = in_flight (GetUserById f)
          ∧ in_flight t' = in_flight (GetUserById f').
Proof.
  destruct t as [f|userId p f| |]; simpl; try discriminate;
    destruct (go f w) as [[f' w1]|] eqn:Hgo; intros [= <- <-]; eauto.
Qed.

(** Replacing a task keeps the agreement when the flag moves with the task:
    either both change together, or a GET that was on its way is gone and
    the flag is clear. *)
Lemma replace_task_guards s s' i t t' :
  tasks s !! i = Some t →
  tasks s' = <[i:=t']> (tasks s) →
  (Nat.b2n (fetchInProgress (this (world s'))) + Nat.b2n (in_flight t)
   = Nat.b2n (fetchInProgress (this (world s))) + Nat.b2n (in_flight t'))%nat
  ∨ (in_flight t = true ∧ in_flight t' = false
     ∧ fetchInProgress (this (world s')) = false) →
  flag_guards_fetch s → flag_guards_fetch s'.
Proof.
  unfold flag_guards_fetch. intros Hi -> Hmove Hinv.
  pose proof (gets_in_flight_insert (tasks s) i t t' Hi) as Hc.
  destruct Hmove as [Hmove | (Ht & Ht' & Hf)].
  - lia.
  - rewrite Ht, Ht' in Hc. rewrite Hf. simpl in *.
    destruct (fetchInProgress (this (world s))); simpl in *; lia.
Qed.

(** Every step keeps the flag and the GETs on their way in agreement. *)
Lemma step_flag_guards_fetch e s s' :
  step e s = Some s' → flag_guards_fetch s → flag_guards_fetch s'.
Proof.
  destruct e as [id|userId p| |i|i reply|i|i reply|ms]; simpl.
  - (* a call of getUserById *)
    pose proof (launch_flag (world s) id) as Hl.
    destruct (launch id (world s)) as [f w']. destruct Hl as [Hf Hsent].
    intros [= <-]. unfold flag_guards_fetch. simpl. intros Hinv.
    rewrite gets_in_flight_app, Hinv, Hf.
    destruct (fetchInProgress (this (world s))); [rewrite Hsent by done|]; simpl; lia.
  - (* a call of updateUserPreferences *)
    pose proof (launch_flag (world s) userId) as Hl.
    destruct (launch userId (world s)) as [f w']. destruct Hl as [Hf Hsent].
    intros [= <-]. unfold flag_guards_fetch. simpl. intros Hinv.
    rewrite gets_in_flight_app, Hinv, Hf.
    change (in_flight (UpdateFetching userId p f)) with (in_flight (GetUserById f)).
    destruct (fetchInProgress (this (world s))); [rewrite Hsent by done|]; simpl; lia.
  - (* clearCache *)
    intros [= <-] Hinv. exact Hinv.
  - (* a retry timer fires *)
    intros Hstep. apply on_task_Some in Hstep as (t & t' & Hi & Hgo & Hts).
    apply on_fetch_Some in Hgo as (f & f' & Hgo & Ht & Ht').
    destruct f as [id wake| |]; simpl in Hgo; try discriminate.
    destruct (wake <=? clock (world s)); [|discriminate].
    pose proof (launch_flag (world s) id) as Hl.
    destruct (launch id (world s)) as [f1 w1]. destruct Hl as [Hf Hsent].
    injection Hgo as -> ->.
    apply (replace_task_guards s s' i t t' Hi Hts). left.
    rewrite Ht, Ht', Hf.
    destruct (fetchInProgress (this (world s))); [rewrite Hsent by done|]; simpl; lia.
  - (* the reply to a GET arrives *)
    intros Hstep. apply on_task_Some in Hstep as (t & t' & Hi & Hgo & Hts).
    apply on_fetch_Some in Hgo as (f & f' & Hgo & Ht & Ht').
    destruct f as [|id now|]; simpl in Hgo; try discriminate.
    pose proof (getUserById_resume_clears_flag (world s) id now reply) as Hf.
    destruct (getUserById_resume id now reply (world s)) as [r w1].
    injection Hgo as <- ->.
    apply (replace_task_guards s s' i t t' Hi Hts). right. auto.
  - (* an update goes on to its POST *)
    intros Hstep. apply on_task_Some in Hstep as (t & t' & Hi & Hgo & Hts).
    destruct t as [|userId p [| |fetched]| |]; simpl in Hgo; try discriminate.
    pose proof (updateUserPreferences_merge_this (world s) userId p fetched) as Hf.
    apply (replace_task_guards s s' i _ t' Hi Hts). left.
    destruct (updateUserPreferences_merge userId p fetched (world s)) as [[updated|e] w1];
      injection Hgo as <- ->; simpl in *; by rewrite Hf.
  - (* the reply to a POST arrives *)
    intros Hstep. apply on_task_Some in Hstep as (t & t' & Hi & Hgo & Hts).
    destruct t as [| |userId p updated|]; simpl in Hgo; try discriminate.
    pose proof (updateUserPreferences_resume_flag (world s) userId p updated reply) as Hf.
    apply (replace_task_guards s s' i _ t' Hi Hts). left.
    destruct (updateUserPreferences_resume userId p updated reply (world s)) as [r w1].
    injection Hgo as <- ->. simpl in *. by rewrite Hf.
  - (* time passes *)
    destruct (0 <=? ms); [|discriminate]. intros [= <-] Hinv. exact Hinv.
Qed.

Lemma run_flag_guards_fetch es s s' :
  run es s = Some s' → flag_guards_fetch s → flag_guards_fetch s'.
Proof.
  revert s. induction es as [|e es IH]; intros s; simpl.
  - intros [= <-]. auto.
  - destruct (step e s) as [s1|] eqn:He; [|discriminate].
    eauto using step_flag_guards_fetch.
Qed.

Lemma reachable_flag_guards_fetch s : reachable s → flag_guards_fetch s.
Proof.
  intros (d & store & time & es & Hrun).
  eapply run_flag_guards_fetch; [exact Hrun | reflexivity].
Qed.

(** C5. The second stretch of [getUserById] ends with the flag clear whatever
    the reply: a fulfilled GET, a rejected GET answered from the store, and a
    rejected GET that ends in the thrown error. The first stretch sets the
    flag only when it goes on to wait for the GET. So in every state the
    service can reach, the flag is clear when no GET is on its way. *)
Theorem flag_cleared_on_every_exit w id now reply s :
  fetchInProgress (this (getUserById_resume id now reply w).2) = false
  ∧ (fetchInProgress (this w) = false →
     fetchInProgress (this (getUserById_start id w).2) = true →
     (getUserById_start id w).1 = Returned (AwaitingGet id (clock w)))
  ∧ (reachable s → gets_in_flight (tasks s) = 0%nat →
     fetchInProgress (this (world s)) = false).
Proof.
  split; [apply getUserById_resume_clears_flag|]. split.
  - intros Hb. destruct (decide (cache_fresh (this w) id (clock w))) as [[[u Hu] Hf]|Hm].
    + rewrite (getUserById_start_hit w id u Hu Hf). simpl. congruence.
    + rewrite (getUserById_start_fetch w id Hm Hb). done.
  - intros Hr Hz. apply reachable_flag_guards_fetch in Hr. unfold flag_guards_fetch in Hr.
    destruct (fetchInProgress (this (world s))); [simpl in Hr; lia | reflexivity].
Qed.

(** C3. In every state the service can reach at most one GET is on its way.
    When a call of [getUserById(id)] misses the cache while the flag is set,
    it issues no request and changes nothing: it sleeps until 100 ms after
    the present time, and when its timer fires (never earlier) it runs
    [getUserById(id)] again from the first line. *)
Theorem in_flight_flag_serializes s id :
  reachable s →
  let w := world s in
  (gets_in_flight (tasks s) ≤ 1)%nat
  ∧ (fetchInProgress (this w) = true →
     ¬ cache_fresh (this w) id (clock w) →
     getUserById_start id w = (Returned (RetryAfter 100), w)
     ∧ launch id w = (Sleeping id (clock w + 100), w)
     ∧ step (call_getUserById id) s
       = Some {| world := w;
                 tasks := tasks s ++ [GetUserById (Sleeping id (clock w + 100))] |}
     ∧ ∀ w', wake_up (Sleeping id (clock w + 100)) w'
             = if clock w + 100 <=? clock w' then Some (launch id w') else None).
Proof.
  intros Hr w. split.
  - apply reachable_flag_guards_fetch in Hr. unfold flag_guards_fetch in Hr.
    destruct (fetchInProgress (this (world s))); simpl in Hr; lia.
  - intros Hb Hm. pose proof (getUserById_start_busy w id Hm Hb) as Hs.
    assert (launch id w = (Sleeping id (clock w + 100), w)) as Hl
      by (unfold launch; rewrite Hs; reflexivity).
    split; [exact Hs|]. split; [exact Hl|]. split; [|reflexivity].
    simpl. fold w. rewrite Hl. reflexivity.
Qed.

End Flag.

(** ** The properties on concrete runs *)

Lemma busy_system_reachable : reachable Mock.busy_system.
Proof.
  exists default_cacheDuration, Mock.empty_store, 1000, [call_getUserById "1"].
  reflexivity.
Defined.

Lemma getUserById_cache_check_witness :
  (∃ cachedUser,
     cachedUsers (this Mock.cached_world) !! "1" = Some cachedUser
     ∧ (getUserById_start "1" Mock.cached_world).1 = Returned (CacheHit cachedUser)
     ∧ apiClient (getUserById_start "1" Mock.cached_world).2 = [])
  ∧ (getUserById_start "1" Mock.stale_world).1 = Returned (AwaitingGet "1" 70000)
  ∧ apiClient (getUserById_start "1" Mock.stale_world).2 = [GET "/users/1"].
Proof.
  split.
  - apply (proj1 (getUserById_cache_check Mock.cached_world "1")).
    split; [exists Mock.alice; reflexivity | reflexivity].
  - apply (proj2 (proj2 (getUserById_cache_check Mock.stale_world "1"))).
    + intros [_ H]. vm_compute in H. discriminate H.
    + reflexivity.
Defined.

Lemma getUserById_fallback_witness :
  (getUserById_resume "1" 1000 (Thrown (Error "HTTP error 500"))
     (Mock.world_at_reply Mock.store_with_alice)).1
  = Returned Mock.alice
  ∧ (getUserById_resume "1" 1000 (Thrown (Error "HTTP error 500"))
       (Mock.world_at_reply Mock.empty_store)).1
    = Thrown (Error "Failed to fetch user with ID 1").
Proof.
  split.
  - exact (proj1 (proj1 (proj2 (getUserById_fallback
                                  (Mock.world_at_reply Mock.store_with_alice)
                                  "1" 1000 (Error "HTTP error 500")))
                    "json:1" Mock.alice_stored eq_refl eq_refl)).
  - apply (proj2 (proj2 (getUserById_fallback (Mock.world_at_reply Mock.empty_store)
                           "1" 1000 (Error "HTTP error 500")))).
    left. reflexivity.
Defined.

Lemma getUserById_success_witness :
  let r := getUserById_resume "1" 1000 (Returned Mock.alice)
             (Mock.world_at_reply Mock.empty_store) in
  r.1 = Returned Mock.alice
  ∧ cachedUsers (this r.2) = {[ "1" := Mock.alice ]}
  ∧ lastFetchTime (this r.2) = 1000
  ∧ clock r.2 = 5000
  ∧ Mock.items (storage r.2) = {[ "user_1" := "json:1" ]}.
Proof.
  pose proof (getUserById_success Mock.idle_world (Mock.world_at_reply Mock.empty_store)
                "1" "1" 1000 Mock.alice eq_refl) as (_ & H1 & H2 & H3 & _ & H4).
  intros r. subst r.
  split; [exact H1|]. split; [exact H2|]. split; [exact H3|]. split; [reflexivity|].
  rewrite H4. reflexivity.
Defined.

Lemma waiting_system_reachable : reachable Mock.waiting_system.
Proof.
  exists default_cacheDuration, Mock.empty_store, 1000,
    [call_getUserById "1"; time_passes 4000].
  reflexivity.
Defined.

Lemma failed_system_reachable : reachable Mock.failed_system.
Proof.
  exists default_cacheDuration, Mock.empty_store, 1000,
    [call_getUserById "1"; get_settles 0 (Thrown (Error "HTTP error 500"))].
  reflexivity.
Defined.

(** C4 as stated fails: a GET issued at time 1000 and fulfilled at time 5000
    leaves the freshness clock at 1000, not at the time of completion. *)
Lemma freshness_clock_is_not_completion_time :
  ¬ (∀ (s s' : System Mock.MockStorage) (i : nat) (user : User),
       reachable s →
       step (get_settles i (Returned user)) s = Some s' →
       lastFetchTime (this (world s')) = clock (world s')).
Proof.
  intros H.
  specialize (H Mock.waiting_system _ 0%nat Mock.alice waiting_system_reachable eq_refl).
  vm_compute in H. discriminate H.
Qed.

Lemma flag_cleared_on_every_exit_witness :
  fetchInProgress (this (Mock.world_at_reply Mock.empty_store)) = true
  ∧ fetchInProgress
      (this (getUserById_resume "1" 1000 (Thrown (Error "HTTP error 500"))
               (Mock.world_at_reply Mock.empty_store)).2) = false
  ∧ fetchInProgress (this (world Mock.failed_system)) = false.
Proof.
  pose proof (flag_cleared_on_every_exit (Mock.world_at_reply Mock.empty_store) "1" 1000
                (Thrown (Error "HTTP error 500")) Mock.failed_system) as (H1 & _ & H3).
  split; [reflexivity|]. split; [exact H1|].
  exact (H3 failed_system_reachable eq_refl).
Defined.

Lemma in_flight_flag_serializes_witness :
  (gets_in_flight (tasks Mock.busy_system) ≤ 1)%nat
  ∧ step (call_getUserById "2") Mock.busy_system
    = Some {| world := world Mock.busy_system;
              tasks := [GetUserById (InFlight "1" 1000);
                        GetUserById (Sleeping "2" 1100)] |}.
Proof.
  pose proof (in_flight_flag_serializes Mock.busy_system "2" busy_system_reachable)
    as (H1 & H2).
  split; [exact H1|].
  refine (proj1 (proj2 (proj2 (H2 eq_refl _)))).
  intros [H _]. vm_compute in H. destruct H as [u H]. discriminate H.
Defined.

Lemma storage_failure_swallowed_witness :
  let w := Mock.world_at_reply Mock.full_store in
  let fetched := getUserById_resume "1" 1000 (Returned Mock.alice) w in
  fetched.1 = Returned Mock.alice
  ∧ logger fetched.2
    = [logged_log "Fetching user data" (data_id "1");
       logged_error "Failed to save user to storage" (Error "setItem failed")]
  ∧ cachedUsers (this fetched.2) = {[ "1" := Mock.alice ]}.
Proof.
  intros w fetched.
  pose proof (storage_failure_swallowed w "1" 1000 "1" (Mock.only_language "fr")
                Mock.dark_noisy Mock.alice) as (H1 & _ & H3 & _).
  split; [exact H1|].
  exact (H3 "json:1" (Error "setItem failed") eq_refl eq_refl).
Defined.

(** The merge law on the example of the specification. *)
Example updatedPreferences_example :
  updatedPreferences Mock.alice (Mock.only_language "fr")
  = {| theme := dark; notifications := true; language := "fr" |}.
Proof. reflexivity. Qed.

(** A user without preferences gets the defaults under the update. *)
Example updatedPreferences_defaults :
  updatedPreferences Mock.bob (Mock.only_language "fr")
  = {| theme := system; notifications := false; language := "fr" |}.
Proof. reflexivity. Qed.

Example calculateUserScore_null : calculateUserScore 0 None = Returned 0.
Proof. reflexivity. Qed.

(** After [clearCache] a user that was cached and fresh is fetched again. *)
Example clearCache_then_fetch :
  (getUserById_start "1" (clearCache Mock.cached_world).2).1
  = Returned (AwaitingGet "1" 1000).
Proof. reflexivity. Qed.

(** Two calls for different users while the first GET is on its way: the
    second sleeps, wakes after the first has settled and only then sends its
    own GET. *)
Example second_call_waits :
  (λ s, (tasks s, apiClient (world s)))
    <$> run [call_getUserById "1"; call_getUserById "2"; time_passes 50;
             get_settles 0 (Returned Mock.alice); time_passes 50; timer_fires 1]
          (initial default_cacheDuration Mock.empty_store 1000)
  = Some ([GetUserById (Settled (Returned Mock.alice));
           GetUserById (InFlight "2" 1100)],
          [GET "/users/1"; GET "/users/2"]).
Proof. vm_compute. reflexivity. Qed.

(** The timer cannot fire early. *)
Example timer_not_before_100ms :
  run [call_getUserById "2"; time_passes 99; timer_fires 1] Mock.busy_system = None.
Proof. reflexivity. Qed.

(** * Further properties of the service *)

(** ** The score as a whole *)

Module ScoreFacts.

Lemma email_factor_range user score score' :
  email_factor user score = Returned score' → score ≤ score' ≤ score + 15.
Proof.
  unfold email_factor. intros H.
  repeat match type of H with
         | context [if ?b then _ else _] => destruct b
         | context [match ?o with Some _ => _ | None => _ end] => destruct o
         end; simplify_eq; lia.
Qed.

Lemma login_factor_range now user score :
  score ≤ login_factor now user score ≤ score + 20.
Proof.
  unfold login_factor. destruct (lastLogin user) as [[[t|]]|]; simpl; try lia.
  repeat case_match; lia.
Qed.

Lemma name_factor_range user score :
  score ≤ name_factor user score ≤ score + 13.
Proof.
  unfold name_factor. destruct (JsString.truthy (name user)); [|lia].
  cbv zeta. repeat case_match; lia.
Qed.

Lemma preferences_factor_range user score :
  score ≤ preferences_factor user score ≤ score + 10.
Proof.
  unfold preferences_factor. destruct (preferences user) as [prefs|]; [|lia].
  cbv zeta. repeat case_match; lia.
Qed.

(** Without an at sign the domain is [undefined] and [endsWith] throws. *)
Lemma email_factor_no_at user score :
  email user ≠ "" →
  Email.after_first "@" (email user) = None →
  email_factor user score
  = Thrown (TypeError "Cannot read properties of undefined (reading 'endsWith')").
Proof.
  intros Hne Hno. unfold email_factor.
  rewrite EmailFacts.split_second, Hno. simpl.
  destruct (email user); [congruence | reflexivity].
Qed.

Lemma email_factor_returns user score :
  email user = "" ∨ is_Some (Email.after_first "@" (email user)) →
  ∃ score', email_factor user score = Returned score'.
Proof.
  intros [He | [rest Hrest]].
  - unfold email_factor. rewrite He. simpl. eauto.
  - eexists. apply EmailFacts.email_factor_domain.
    + eauto using EmailFacts.truthy_after_first.
    + rewrite EmailFacts.split_second, Hrest. reflexivity.
Qed.

(** The name and the preferences add an amount that does not depend on the
    score so far. *)
Lemma name_factor_adds user score :
  name_factor user score = score + name_factor user 0.
Proof.
  unfold name_factor. destruct (JsString.truthy (name user)); [|lia].
  cbv zeta. repeat case_match; lia.
Qed.

Lemma preferences_factor_adds user score :
  preferences_factor user score = score + preferences_factor user 0.
Proof.
  unfold preferences_factor. destruct (preferences user) as [prefs|]; [|lia].
  cbv zeta. repeat case_match; lia.
Qed.

Lemma login_factor_monotone now user score t1 t2 :
  t1 ≤ t2 →
  login_factor now (set_lastLogin user None) score
  ≤ login_factor now (login_at user t1) score
  ≤ login_factor now (login_at user t2) score.
Proof.
  intros Ht. unfold login_factor, login_at, set_lastLogin, ms_per_day. simpl.
  repeat case_match; lia.
Qed.

Lemma split_length sep s :
  length (JsString.split sep s) = S (count_char sep s).
Proof.
  induction s as [|c rest IH]; simpl; [reflexivity|].
  destruct (Ascii.eqb c sep); simpl; [by rewrite IH|].
  destruct (JsString.split sep rest); simpl in *; lia.
Qed.

End ScoreFacts.

(** X1. Whenever [calculateUserScore] returns for a user, the score lies
    between 10 and 68; for [null] it is 0. *)
Theorem calculateUserScore_range (now : Z) (user : option User) (n : Z) :
  calculateUserScore now user = Returned n →
  match user with
  | Some _ => 10 ≤ n ≤ 68
  | None => n = 0
  end.
Proof.
  destruct user as [user|]; simpl; [|by intros [= <-]].
  destruct (email_factor user 10) as [s1|e] eqn:He; [|discriminate].
  intros [= <-]. unfold Math_round.
  pose proof (ScoreFacts.email_factor_range _ _ _ He).
  pose proof (ScoreFacts.login_factor_range now user s1).
  pose proof (ScoreFacts.name_factor_range user (login_factor now user s1)).
  pose proof (ScoreFacts.preferences_factor_range user
                (name_factor user (login_factor now user s1))).
  lia.
Qed.

(** Both ends of the range are scores of some user. *)
Lemma calculateUserScore_range_witness :
  calculateUserScore 1000 (Some Fixtures.grace) = Returned 68
  ∧ 10 ≤ 68 ≤ 68.
Proof.
  split; [reflexivity|].
  exact (calculateUserScore_range 1000 (Some Fixtures.grace) 68 eq_refl).
Defined.

Example calculateUserScore_lowest :
  calculateUserScore 0
    (Some {| id := "0"; name := ""; email := ""; lastLogin := None; preferences := None |})
  = Returned 10.
Proof. reflexivity. Qed.

(** X2. [calculateUserScore] returns a number for a user exactly when the
    user's email is empty or contains an at sign; it throws otherwise. *)
Theorem calculateUserScore_returns_iff (now : Z) (user : User) :
  (∃ n, calculateUserScore now (Some user) = Returned n)
  ↔ (email user = "" ∨ is_Some (Email.after_first "@" (email user))).
Proof.
  split.
  - intros [n Hn].
    destruct (decide (email user = "")) as [|Hne]; [by left|]. right.
    destruct (Email.after_first "@" (email user)) as [rest|] eqn:Hrest; [by eexists|].
    exfalso. unfold calculateUserScore in Hn.
    rewrite (ScoreFacts.email_factor_no_at user 10 Hne Hrest) in Hn. discriminate.
  - intros H. destruct (ScoreFacts.email_factor_returns user 10 H) as [s1 Hs1].
    eexists. unfold calculateUserScore. rewrite Hs1. reflexivity.
Qed.

(** X3. A later login never lowers the score: of two users that differ only
    in the time of their last login, the one who logged in later scores at
    least as much; and a user with a login scores at least as much as the
    same user without one. *)
Theorem calculateUserScore_recency_monotone (now : Z) (user : User) (t1 t2 n0 n1 n2 : Z) :
  t1 ≤ t2 →
  calculateUserScore now (Some (set_lastLogin user None)) = Returned n0 →
  calculateUserScore now (Some (login_at user t1)) = Returned n1 →
  calculateUserScore now (Some (login_at user t2)) = Returned n2 →
  n0 ≤ n1 ≤ n2.
Proof.
  intros Ht. unfold calculateUserScore.
  change (email_factor (set_lastLogin user None) 10) with (email_factor user 10).
  change (email_factor (login_at user t1) 10) with (email_factor user 10).
  change (email_factor (login_at user t2) 10) with (email_factor user 10).
  destruct (email_factor user 10) as [s1|e]; [|discriminate].
  change (name_factor (set_lastLogin user None)) with (name_factor user).
  change (name_factor (login_at user t1)) with (name_factor user).
  change (name_factor (login_at user t2)) with (name_factor user).
  change (preferences_factor (set_lastLogin user None)) with (preferences_factor user).
  change (preferences_factor (login_at user t1)) with (preferences_factor user).
  change (preferences_factor (login_at user t2)) with (preferences_factor user).
  intros [= <-] [= <-] [= <-]. unfold Math_round.
  rewrite !(ScoreFacts.preferences_factor_adds user (name_factor _ _)),
    !(ScoreFacts.name_factor_adds user (login_factor _ _ _)).
  pose proof (ScoreFacts.login_factor_monotone now user s1 t1 t2 Ht). lia.
Qed.

(** X4. For a user with a name, the name adds 2 for each part of the trimmed
    name, at most 10, and the bonus for the length of the untrimmed name; the
    parts are one more than the space characters of the trimmed name, so two
    spaces in a row make a part of their own and a tab separates nothing. *)
Theorem name_factor_counts_spaces (user : User) (score : Z) :
  name user ≠ "" →
  name_factor user score
  = score
    + Z.min (2 * (1 + Z.of_nat (count_char " " (JsString.trim (name user))))) 10
    + length_bonus (Z.of_nat (String.length (name user))).
Proof.
  intros Hne. unfold name_factor, length_bonus.
  destruct (name user) as [|c rest] eqn:Hn; [done|]. simpl JsString.truthy. cbv iota zeta.
  rewrite ScoreFacts.split_length.
  replace (Z.of_nat (S (count_char " " (JsString.trim (String c rest)))) * 2)
    with (2 * (1 + Z.of_nat (count_char " " (JsString.trim (String c rest))))) by lia.
  repeat case_match; lia.
Qed.

Lemma name_factor_counts_spaces_witness :
  name_factor (Email.carol "c@x.org") 0 = 2
  ∧ name_factor
      {| id := "8"; name := " Ann  Lee "; email := ""; lastLogin := None;
         preferences := None |} 0 = 7.
Proof.
  split.
  - exact (name_factor_counts_spaces (Email.carol "c@x.org") 0 ltac:(discriminate)).
  - exact (name_factor_counts_spaces
             {| id := "8"; name := " Ann  Lee "; email := ""; lastLogin := None;
                preferences := None |} 0 ltac:(discriminate)).
Defined.

Lemma calculateUserScore_recency_monotone_witness :
  calculateUserScore 5000000000 (Some (set_lastLogin Mock.alice None)) = Returned 33
  ∧ 33 ≤ 38 ≤ 53.
Proof.
  split; [reflexivity|].
  exact (calculateUserScore_recency_monotone 5000000000 Mock.alice
           3000000000 4999999000 33 38 53 ltac:(lia) eq_refl eq_refl eq_refl).
Defined.

(** ** How the stretches compose *)

Section Compose.
Context {S : Type} `{!Storage S} `{!Json}.
Implicit Types (w : World S) (id : string) (now : Z).

(** The world after a fulfilled GET. *)
Lemma getUserById_resume_fulfilled w id now user :
  let r := getUserById_resume id now (Returned user) w in
  r.1 = Returned user
  ∧ this r.2
    = set_fetchInProgress false
        (set_lastFetchTime now (set_cachedUsers (insert id user) (this w)))
  ∧ apiClient r.2 = apiClient w
  ∧ clock r.2 = clock w
  ∧ storage r.2 = storage (saveUserToStorage user w).2.
Proof.
  intros r. subst r. unfold getUserById_resume. sync.
  rewrite !saveUserToStorage_eq. simpl.
  destruct (JSON_stringify user) as [value|e]; [|done].
  destruct (setItem (storage w) _ value) as [[[]|e] s']; done.
Qed.

Lemma getUserFromStorage_clock w id :
  clock (getUserFromStorage id w).2 = clock w.
Proof.
  unfold getUserFromStorage. sync.
  destruct (getItem (storage w) _) as [[[data|]|e] s']; simpl; [|done|done].
  destruct (JsString.truthy data); simpl; [|done].
  destruct (JSON_parse data); done.
Qed.

Lemma getUserById_resume_rejected_clock w id now error :
  clock (getUserById_resume id now (Thrown error) w).2 = clock w.
Proof.
  unfold getUserById_resume. sync.
  match goal with |- context [getUserFromStorage id ?w1] =>
    pose proof (getUserFromStorage_clock w1 id) as Hc;
    destruct (getUserFromStorage id w1) as [[[u|]|e] w2] end; simpl in *; done.
Qed.

(** The world after a fulfilled POST. *)
Lemma updateUserPreferences_resume_fulfilled w userId p updated user :
  let r := updateUserPreferences_resume userId p updated (Returned user) w in
  r.1 = Returned (set_preferences user updated)
  ∧ this r.2 = set_cachedUsers (insert userId (set_preferences user updated)) (this w)
  ∧ apiClient r.2 = apiClient w
  ∧ clock r.2 = clock w.
Proof.
  intros r. subst r. unfold updateUserPreferences_resume. sync.
  rewrite !saveUserToStorage_eq. simpl.
  destruct (JSON_stringify _) as [value|e]; [|done].
  destruct (setItem (storage w) _ value) as [[[]|e] s']; done.
Qed.

(** The first stretch sees the clock and the service, nothing else. *)
Lemma getUserById_start_at w id t cachedUser :
  cachedUsers (this w) !! id = Some cachedUser →
  t - lastFetchTime (this w) < cacheDuration (this w) →
  (getUserById_start id (set_clock t w)).1 = Returned (CacheHit cachedUser)
  ∧ apiClient (getUserById_start id (set_clock t w)).2 = apiClient w.
Proof.
  intros Hc Hf.
  rewrite (getUserById_start_hit (set_clock t w) id cachedUser Hc Hf). done.
Qed.

Lemma getUserById_start_stale w id t :
  cacheDuration (this w) ≤ t - lastFetchTime (this w) →
  fetchInProgress (this w) = false →
  (getUserById_start id (set_clock t w)).1 = Returned (AwaitingGet id t)
  ∧ apiClient (getUserById_start id (set_clock t w)).2
    = (apiClient w ++ [GET ("/users/" +:+ id)])%list.
Proof.
  intros Hs Hb.
  rewrite (getUserById_start_fetch (set_clock t w) id); [done| |done].
  intros [_ Hf]. simpl in Hf. lia.
Qed.

(** X5. A user fetched by an attempt that began at time [now] is served from
    the cache, with no request, to every later [getUserById] for the same id
    at a time [t] with [t - now] below the cache duration; from then on, the
    next call sends a GET again. The window counts from the start of the
    attempt, not from the arrival of the reply. *)
Theorem fetched_user_is_cached_for_the_window w0 w id id' now user t :
  (getUserById_start id w0).1 = Returned (AwaitingGet id' now) →
  let w1 := (getUserById_resume id' now (Returned user) w).2 in
  let again := getUserById_start id (set_clock t w1) in
  (t - clock w0 < cacheDuration (this w) →
   again.1 = Returned (CacheHit user) ∧ apiClient again.2 = apiClient w)
  ∧ (cacheDuration (this w) ≤ t - clock w0 →
     again.1 = Returned (AwaitingGet id t)
     ∧ apiClient again.2 = (apiClient w ++ [GET ("/users/" +:+ id)])%list).
Proof.
  intros Hstart w1 again. apply getUserById_start_awaiting in Hstart as (-> & -> & _).
  destruct (getUserById_resume_fulfilled w id (clock w0) user) as (_ & Ht & Ha & _).
  fold w1 in Ht, Ha. subst again. split; intros Hw.
  - rewrite <- Ha. apply getUserById_start_at.
    + rewrite Ht. simpl. apply lookup_insert_eq.
    + rewrite Ht. simpl. exact Hw.
  - rewrite <- Ha. apply getUserById_start_stale.
    + rewrite Ht. simpl. exact Hw.
    + rewrite Ht. reflexivity.
Qed.

(** X6. The freshness clock is shared: a fulfilled GET for one id makes every
    entry of the cache fresh again. A user cached under another id, however
    long ago, is served from the cache for the whole window that follows. *)
Theorem fetch_refreshes_other_entries w id other now user cachedUser t :
  other ≠ id →
  cachedUsers (this w) !! other = Some cachedUser →
  t - now < cacheDuration (this w) →
  let w1 := (getUserById_resume id now (Returned user) w).2 in
  let again := getUserById_start other (set_clock t w1) in
  again.1 = Returned (CacheHit cachedUser) ∧ apiClient again.2 = apiClient w.
Proof.
  intros Hne Hc Hw w1 again.
  destruct (getUserById_resume_fulfilled w id now user) as (_ & Ht & Ha & _).
  fold w1 in Ht, Ha. subst again. rewrite <- Ha. apply getUserById_start_at.
  - rewrite Ht. simpl. by rewrite lookup_insert_ne.
  - rewrite Ht. simpl. exact Hw.
Qed.

(** X7. A rejected GET leaves the cache and the freshness clock as they were,
    also when the call is answered from the store: what was fresh stays
    fresh, what was not stays so, and a caller that asks again at once, for
    an id the cache could not serve, sends the next GET. *)
Theorem rejected_fetch_is_not_remembered w id now error :
  let w1 := (getUserById_resume id now (Thrown error) w).2 in
  cachedUsers (this w1) = cachedUsers (this w)
  ∧ lastFetchTime (this w1) = lastFetchTime (this w)
  ∧ (∀ other t, cache_fresh (this w1) other t ↔ cache_fresh (this w) other t)
  ∧ (¬ cache_fresh (this w) id (clock w) →
     (getUserById_start id w1).1 = Returned (AwaitingGet id (clock w))).
Proof.
  intros w1.
  destruct (getUserById_resume_rejected w id now error) as (_ & Ht & _).
  pose proof (getUserById_resume_rejected_clock w id now error) as Hc.
  fold w1 in Ht, Hc.
  split; [by rewrite Ht|]. split; [by rewrite Ht|]. split.
  - intros other t. unfold cache_fresh. by rewrite Ht.
  - intros Hm. rewrite (getUserById_start_fetch w1 id).
    + simpl. by rewrite Hc.
    + rewrite Hc. unfold cache_fresh in *. by rewrite Ht.
    + by rewrite Ht.
Qed.

(** X8. The only errors a caller sees are the service's own. The first
    stretch of [getUserById] never throws; its second stretch throws only
    after a rejected GET, and then the error that names [id];
    [updateUserPreferences] throws only after a failed [getUserById] or a
    rejected POST, and then the error that names [userId]. No error of the
    API client, the store or the codec gets out. *)
Theorem only_derived_errors w id now userId p updated (reply : Outcome User) (e : JsError) :
  (getUserById_start id w).1 ≠ Thrown e
  ∧ ((getUserById_resume id now reply w).1 = Thrown e →
     (∃ e0, reply = Thrown e0) ∧ e = Error ("Failed to fetch user with ID " +:+ id))
  ∧ ((updateUserPreferences_merge userId p reply w).1 = Thrown e →
     (∃ e0, reply = Thrown e0)
     ∧ e = Error ("Failed to update preferences for user " +:+ userId))
  ∧ ((updateUserPreferences_resume userId p updated reply w).1 = Thrown e →
     (∃ e0, reply = Thrown e0)
     ∧ e = Error ("Failed to update preferences for user " +:+ userId)).
Proof.
  split; [|split; [|split]].
  - destruct (decide (cache_fresh (this w) id (clock w))) as [[[u Hu] Hf]|Hm].
    + by rewrite (getUserById_start_hit w id u Hu Hf).
    + destruct (fetchInProgress (this w)) eqn:Hb.
      * by rewrite (getUserById_start_busy w id Hm Hb).
      * by rewrite (getUserById_start_fetch w id Hm Hb).
  - destruct reply as [user|e0].
    + destruct (getUserById_resume_fulfilled w id now user) as (Hr & _).
      rewrite Hr. discriminate.
    + destruct (getUserById_resume_rejected w id now e0) as (Hr & _).
      rewrite Hr. intros He. split; [eauto|].
      repeat case_match; congruence.
  - destruct reply as [user|e0]; [discriminate|].
    intros [= <-]. eauto.
  - destruct reply as [user|e0].
    + destruct (updateUserPreferences_resume_fulfilled w userId p updated user) as (Hr & _).
      rewrite Hr. discriminate.
    + intros [= <-]. eauto.
Qed.

(** X9. What a fulfilled GET wrote to the store is what a later rejected GET
    falls back on, when the store gives back what was put into it, the text
    of the user parses, and the user came with the id that was asked for (the
    copy is written under the user's own id and read under the requested
    one). *)
Theorem persisted_user_is_the_fallback w w2 id now now' user value stored error :
  user_key user = "user_" +:+ id →
  JSON_stringify user = Returned value →
  JSON_parse value = Returned stored →
  (setItem (storage w) (user_key user) value).1 = Returned () →
  (getItem (setItem (storage w) (user_key user) value).2 (user_key user)).1
  = Returned (Some value) →
  let w1 := (getUserById_resume id now (Returned user) w).2 in
  storage w2 = storage w1 →
  (getUserById_resume id now' (Thrown error) w2).1 = Returned (rehydrate stored).
Proof.
  intros Hkey Hjson Hparse Hset Hlaw w1 Hw2.
  destruct (getUserById_resume_fulfilled w id now user) as (_ & _ & _ & _ & Hs).
  fold w1 in Hs. rewrite saveUserToStorage_eq, Hjson in Hs.
  assert (storage w2 = (setItem (storage w) (user_key user) value).2) as Hst.
  { rewrite Hw2, Hs.
    destruct (setItem (storage w) (user_key user) value) as [[[]|e] s']; simpl in *;
      [reflexivity | discriminate]. }
  destruct (getUserById_resume_rejected w2 id now' error) as (Hr & _).
  rewrite Hr.
  match goal with |- context [getUserFromStorage id ?w3] =>
    destruct (getUserFromStorage_eq w3 id) as (Hg & _); simpl in Hg; rewrite Hg end.
  rewrite Hst, <- Hkey, Hlaw, (JSON_parse_truthy _ _ Hparse), Hparse. reflexivity.
Qed.

(** X10. After [clearCache] no call is served from the cache, whatever the
    time: with no fetch in flight the next [getUserById] sends a GET. The
    flag, the store, the log and the requests are as before. *)
Theorem clearCache_forces_fetch w id t :
  let w1 := (clearCache w).2 in
  let again := getUserById_start id (set_clock t w1) in
  (∀ user, again.1 ≠ Returned (CacheHit user))
  ∧ (fetchInProgress (this w) = false →
     again.1 = Returned (AwaitingGet id t)
     ∧ apiClient again.2 = (apiClient w ++ [GET ("/users/" +:+ id)])%list)
  ∧ cachedUsers (this w1) = ∅
  ∧ lastFetchTime (this w1) = 0
  ∧ fetchInProgress (this w1) = fetchInProgress (this w)
  ∧ storage w1 = storage w ∧ logger w1 = logger w ∧ apiClient w1 = apiClient w.
Proof.
  intros w1 again.
  assert (¬ cache_fresh (this (set_clock t w1)) id (clock (set_clock t w1))) as Hm.
  { intros [[u Hu] _]. simpl in Hu. by rewrite lookup_empty in Hu. }
  split; [|split; [|done]].
  - intros user. subst again. destruct (fetchInProgress (this w)) eqn:Hb.
    + by rewrite (getUserById_start_busy (set_clock t w1) id Hm Hb).
    + by rewrite (getUserById_start_fetch (set_clock t w1) id Hm Hb).
  - intros Hb. subst again.
    by rewrite (getUserById_start_fetch (set_clock t w1) id Hm Hb).
Qed.

(** X11. [clearCache] does not call off a GET that is on its way: when the
    reply arrives, the cache holds that user and nothing else, and the
    freshness clock is the time at which that attempt began, which may lie
    before the clearing. *)
Theorem clearCache_keeps_fetch_in_flight w id now user :
  let w1 := (getUserById_resume id now (Returned user) (clearCache w).2).2 in
  cachedUsers (this w1) = {[ id := user ]}
  ∧ lastFetchTime (this w1) = now
  ∧ ∀ t, t - now < cacheDuration (this w) →
         (getUserById_start id (set_clock t w1)).1 = Returned (CacheHit user).
Proof.
  intros w1.
  destruct (getUserById_resume_fulfilled (clearCache w).2 id now user) as (_ & Ht & _).
  fold w1 in Ht. split; [by rewrite Ht|]. split; [by rewrite Ht|].
  intros t Hw. apply getUserById_start_at.
  - rewrite Ht. simpl. apply lookup_insert_eq.
  - rewrite Ht. simpl. exact Hw.
Qed.

(** X13. A fulfilled POST writes the cache entry and leaves the freshness
    clock and the flag alone. While the clock is fresh the updated user is
    what [getUserById] returns; once the cache duration has elapsed since the
    last fetch, the next [getUserById] sends a GET, whose reply replaces the
    merged preferences. *)
Theorem update_does_not_refresh w userId p updated user t :
  let w1 := (updateUserPreferences_resume userId p updated (Returned user) w).2 in
  let user' := set_preferences user updated in
  let again := getUserById_start userId (set_clock t w1) in
  lastFetchTime (this w1) = lastFetchTime (this w)
  ∧ fetchInProgress (this w1) = fetchInProgress (this w)
  ∧ (t - lastFetchTime (this w) < cacheDuration (this w) →
     again.1 = Returned (CacheHit user'))
  ∧ (cacheDuration (this w) ≤ t - lastFetchTime (this w) →
     fetchInProgress (this w) = false →
     again.1 = Returned (AwaitingGet userId t)
     ∧ ∀ fetched, cachedUsers
                    (this (getUserById_resume userId t (Returned fetched) again.2).2)
                  !! userId = Some fetched).
Proof.
  intros w1 user' again.
  destruct (updateUserPreferences_resume_fulfilled w userId p updated user) as (_ & Ht & _).
  fold w1 user' in Ht.
  split; [by rewrite Ht|]. split; [by rewrite Ht|]. split.
  - intros Hw. apply getUserById_start_at.
    + rewrite Ht. simpl. apply lookup_insert_eq.
    + rewrite Ht. simpl. exact Hw.
  - intros Hs Hb. split.
    + apply getUserById_start_stale; rewrite Ht; done.
    + intros fetched.
      destruct (getUserById_resume_fulfilled again.2 userId t fetched) as (_ & Hf & _).
      rewrite Hf. simpl. apply lookup_insert_eq.
Qed.

(** X16. [getUserFromStorage] never throws and never touches the service or
    the requests. It returns [null] without a word to the logger when the
    store has nothing under the key or has the empty string there, which it
    does not try to parse; when [getItem] or [JSON.parse] throws it returns
    [null] and gives that error to the logger. *)
Theorem getUserFromStorage_null_cases w id :
  let read := (getItem (storage w) ("user_" +:+ id)).1 in
  let r := getUserFromStorage id w in
  (∃ found, r.1 = Returned found)
  ∧ this r.2 = this w ∧ apiClient r.2 = apiClient w
  ∧ (read = Returned None ∨ read = Returned (Some "") →
     r.1 = Returned None ∧ logger r.2 = logger w)
  ∧ (∀ e, read = Thrown e →
     r.1 = Returned None
     ∧ logger r.2 = (logger w ++ [logged_error "Failed to get user from storage" e])%list)
  ∧ (∀ data e, read = Returned (Some data) → data ≠ "" → JSON_parse data = Thrown e →
     r.1 = Returned None
     ∧ logger r.2 = (logger w ++ [logged_error "Failed to get user from storage" e])%list).
Proof.
  intros read r. subst read r. unfold getUserFromStorage. sync.
  destruct (getItem (storage w) _) as [[[[|c data]|]|e] s']; simpl;
    [| destruct (JSON_parse (String c data)) as [user|e] eqn:Hp; simpl | |];
    (split_and!;
     [ eauto | done | done
     | intros [?|?]; by simplify_eq
     | intros; simplify_eq; try (split; congruence)
     | intros; simplify_eq; try (split; congruence) ]).
Qed.

End Compose.

(** ** The merge of preferences *)

(** X12. The merge of [updateUserPreferences] obeys these laws: an update
    with no field gives the user's preferences, or the defaults when the user
    has none; an update with every field gives exactly that update; applying
    the same update a second time changes nothing; and two updates one after
    the other give what the single update made of both gives. *)
Theorem updatedPreferences_laws (user : User) (p q : PartialUserPreferences)
    (t : Theme) (n : bool) (l : string) :
  updatedPreferences user no_update = default default_preferences (preferences user)
  ∧ updatedPreferences user
      {| p_theme := Some t; p_notifications := Some n; p_language := Some l |}
    = {| theme := t; notifications := n; language := l |}
  ∧ updatedPreferences (set_preferences user (updatedPreferences user p)) p
    = updatedPreferences user p
  ∧ updatedPreferences (set_preferences user (updatedPreferences user p)) q
    = updatedPreferences user (then_update p q).
Proof.
  unfold updatedPreferences, spread_partial, spread, then_update, no_update.
  destruct (preferences user) as [[t0 n0 l0]|],
    p as [[pt|] [pn|] [pl|]], q as [[qt|] [qn|] [ql|]]; done.
Qed.

(** ** Whole runs of the service *)

Section Runs.
Context {S : Type} `{!Storage S} `{!Json}.
Implicit Types (w : World S) (s : System S).

(** Running [getUserById] from its first line leaves the cache, the
    freshness clock, the cache duration and the time alone, and an attempt
    that goes on to its GET remembers the present time. *)
Lemma launch_keeps w id :
  let '(f, w') := launch id w in
  cachedUsers (this w') = cachedUsers (this w)
  ∧ lastFetchTime (this w') = lastFetchTime (this w)
  ∧ cacheDuration (this w') = cacheDuration (this w)
  ∧ clock w' = clock w
  ∧ (0 ≤ clock w → started_by (clock w) (GetUserById f)).
Proof.
  unfold launch.
  destruct (decide (cache_fresh (this w) id (clock w))) as [[[u Hu] Hf]|Hm].
  - rewrite (getUserById_start_hit w id u Hu Hf). done.
  - destruct (fetchInProgress (this w)) eqn:Hb.
    + rewrite (getUserById_start_busy w id Hm Hb). done.
    + rewrite (getUserById_start_fetch w id Hm Hb). simpl. split_and!; done || lia.
Qed.

Lemma getUserById_resume_keeps w id now reply :
  let w' := (getUserById_resume id now reply w).2 in
  cacheDuration (this w') = cacheDuration (this w)
  ∧ clock w' = clock w
  ∧ match reply with
    | Returned user =>
        cachedUsers (this w') = <[id:=user]> (cachedUsers (this w))
        ∧ lastFetchTime (this w') = now
    | Thrown _ =>
        cachedUsers (this w') = cachedUsers (this w)
        ∧ lastFetchTime (this w') = lastFetchTime (this w)
    end.
Proof.
  intros w'. subst w'. destruct reply as [user|e].
  - destruct (getUserById_resume_fulfilled w id now user) as (_ & Ht & _ & Hc & _).
    rewrite Ht, Hc. done.
  - destruct (getUserById_resume_rejected w id now e) as (_ & Ht & _).
    rewrite Ht, getUserById_resume_rejected_clock. done.
Qed.


Lemma updateUserPreferences_resume_keeps w userId p updated reply :
  let w' := (updateUserPreferences_resume userId p updated reply w).2 in
  lastFetchTime (this w') = lastFetchTime (this w)
  ∧ cacheDuration (this w') = cacheDuration (this w)
  ∧ clock w' = clock w
  ∧ cachedUsers (this w')
    = match reply with
      | Returned user => <[userId := set_preferences user updated]> (cachedUsers (this w))
      | Thrown _ => cachedUsers (this w)
      end.
Proof.
  intros w'. subst w'. destruct reply as [user|e]; [|done].
  destruct (updateUserPreferences_resume_fulfilled w userId p updated user)
    as (_ & Ht & _ & Hc).
  rewrite Ht, Hc. done.
Qed.

(** X14. The cache changes in three ways only: [clearCache] empties it, a
    fulfilled GET puts the fetched user under the id of its call, and a
    fulfilled POST puts the server's user, with the merged preferences, under
    the id of its update. A call, a retry, a rejected reply (also one
    answered from the store) and the passage of time leave it as it is. *)
Theorem cache_changes_only_by_fulfilled_replies e s s' :
  step e s = Some s' →
  let cache := cachedUsers (this (world s)) in
  let cache' := cachedUsers (this (world s')) in
  cache' = cache
  ∨ (e = call_clearCache ∧ cache' = ∅)
  ∨ (∃ i id now user,
       e = get_settles i (Returned user)
       ∧ (tasks s !! i = Some (GetUserById (InFlight id now))
          ∨ ∃ userId p, tasks s !! i = Some (UpdateFetching userId p (InFlight id now)))
       ∧ cache' = <[id:=user]> cache)
  ∨ (∃ i userId p updated user,
       e = post_settles i (Returned user)
       ∧ tasks s !! i = Some (UpdatePosting userId p updated)
       ∧ cache' = <[userId := set_preferences user updated]> cache).
Proof.
  intros Hstep cache cache'. subst cache cache'.
  destruct e as [id|userId p| |i|i reply|i|i reply|ms]; simpl in Hstep.
  - pose proof (launch_keeps (world s) id) as Hl.
    destruct (launch id (world s)) as [f w']. injection Hstep as <-.
    left. simpl. tauto.
  - pose proof (launch_keeps (world s) userId) as Hl.
    destruct (launch userId (world s)) as [f w']. injection Hstep as <-.
    left. simpl. tauto.
  - injection Hstep as <-. right. left. done.
  - apply on_task_Some in Hstep as (t & t' & Hi & Hgo & Hts).
    apply on_fetch_Some in Hgo as (f & f' & Hgo & _).
    destruct f as [id wake| |]; simpl in Hgo; try discriminate.
    destruct (wake <=? clock (world s)); [|discriminate].
    pose proof (launch_keeps (world s) id) as Hl.
    destruct (launch id (world s)) as [f1 w1]. injection Hgo as -> ->.
    left. tauto.
  - apply on_task_Some in Hstep as (t & t' & Hi & Hgo & Hts).
    destruct t as [f|userId p f| |]; simpl in Hgo; try discriminate;
      (destruct f as [|id now|]; simpl in Hgo; try discriminate;
       pose proof (getUserById_resume_keeps (world s) id now reply) as (_ & _ & Hk);
       destruct (getUserById_resume id now reply (world s)) as [r w1];
       injection Hgo as <- ->; simpl in Hk;
       destruct reply as [user|e0]; [|left; tauto];
       right; right; left; exists i, id, now, user; split_and!; [done|eauto|tauto]).
  - apply on_task_Some in Hstep as (t & t' & Hi & Hgo & Hts).
    destruct t as [|userId p [| |fetched]| |]; simpl in Hgo; try discriminate.
    pose proof (updateUserPreferences_merge_this (world s) userId p fetched) as Hf.
    destruct (updateUserPreferences_merge userId p fetched (world s)) as [[updated|e] w1];
      injection Hgo as <- ->; left; simpl in Hf; by rewrite Hf.
  - apply on_task_Some in Hstep as (t & t' & Hi & Hgo & Hts).
    destruct t as [| |userId p updated|]; simpl in Hgo; try discriminate.
    pose proof (updateUserPreferences_resume_keeps (world s) userId p updated reply)
      as (_ & _ & _ & Hk).
    destruct (updateUserPreferences_resume userId p updated reply (world s)) as [r w1].
    injection Hgo as <- ->. simpl in Hk.
    destruct reply as [user|e0]; [|left; done].
    right; right; right. exists i, userId, p, updated, user. done.
  - destruct (0 <=? ms); [|discriminate]. injection Hstep as <-. left. done.
Qed.





End Runs.

(** * Properties of HardToTest *)

(** ** The listeners *)

Section ListenerFacts.
Import HardToTest.
Context {Function Data Env : Type} `{EqDecision Function}.
Variable call : Function → string → Data → Env → Outcome unit * Env.
Implicit Types (o : Observed (Function:=Function) (Data:=Data) (Env:=Env)).

Lemma notify_fold eventType data ls o :
  let o' := foldl (notify_one call eventType data) o ls in
  listeners o' = listeners o
  ∧ called o' = (called o ++ map (λ cb, (cb, eventType, data)) ls)%list
  ∧ env o' = foldl (λ e cb, (call cb eventType data e).2) (env o) ls
  ∧ ∃ errors,
      console o' = (console o ++ errors)%list
      ∧ (length errors ≤ length ls)%nat
      ∧ Forall (λ entry, ∃ e, entry = console_error "Listener error" e) errors.
Proof.
  revert o. induction ls as [|cb ls IH]; intros o; simpl.
  - split_and!; try done. { by rewrite app_nil_r. }
    exists []. rewrite app_nil_r. split_and!; done || constructor.
  - specialize (IH (notify_one call eventType data o cb)).
    destruct IH as (Hl & Hc & He & errors & Herr & Hlen & Hall).
    rewrite Hl, Hc, He. unfold notify_one in *.
    destruct (call cb eventType data (env o)) as [[[]|e] env'] eqn:Hcall; simpl in *.
    + split_and!; [done | by rewrite <- app_assoc | done |].
      exists errors. split_and!; [done | lia | done].
    + split_and!; [done | by rewrite <- app_assoc | done |].
      exists (console_error "Listener error" e :: errors).
      split_and!; [by rewrite Herr, <- app_assoc | simpl; lia |].
      constructor; eauto.
Qed.

(** X17. [notifyListeners] calls every listener once for each time it was
    added, in the order of adding, with the event and the data, also after a
    listener has thrown; each callback sees what the ones before it left. The
    list of listeners is the same afterwards; the console gets nothing but
    Listener error entries, at most one for each listener. *)
Theorem notifyListeners_calls_everyone eventType data o :
  let o' := notifyListeners call eventType data o in
  listeners o' = listeners o
  ∧ called o' = (called o ++ map (λ cb, (cb, eventType, data)) (listeners o))%list
  ∧ env o' = foldl (λ e cb, (call cb eventType data e).2) (env o) (listeners o)
  ∧ ∃ errors,
      console o' = (console o ++ errors)%list
      ∧ (length errors ≤ length (listeners o))%nat
      ∧ Forall (λ entry, ∃ e, entry = console_error "Listener error" e) errors.
Proof. apply notify_fold. Qed.

Lemma filter_not_elem (cb : Function) (ls : list Function) :
  cb ∉ ls → List.filter (λ c, negb (bool_decide (c = cb))) ls = ls.
Proof.
  induction ls as [|c ls IH]; simpl; [done|].
  intros Hn. apply not_elem_of_cons in Hn as [Hne Hn].
  rewrite bool_decide_eq_false_2 by congruence. simpl. by rewrite IH.
Qed.

(** X18. [removeListener] takes out every registration of the callback, one
    call for a callback added twice, and keeps the other listeners in their
    order; adding a callback that was not registered and removing it again
    gives the list back. After it, a notification does not call the
    callback. *)
Theorem removeListener_removes_every_registration callback eventType data o :
  let o' := removeListener callback o in
  (callback ∉ listeners o')
  ∧ (∀ other, other ∈ listeners o' ↔ other ∈ listeners o ∧ other ≠ callback)
  ∧ sublist (listeners o') (listeners o)
  ∧ removeListener callback (addListener callback (addListener callback o)) = o'
  ∧ (callback ∉ listeners o → removeListener callback (addListener callback o) = o)
  ∧ ∀ c, c ∈ drop (length (called o')) (called (notifyListeners call eventType data o')) →
         c.1.1 ≠ callback.
Proof.
  intros o'.
  assert (∀ other, other ∈ listeners o' ↔ other ∈ listeners o ∧ other ≠ callback) as Hin.
  { intros other. subst o'. simpl. rewrite !list_elem_of_In, List.filter_In.
    rewrite negb_true_iff, bool_decide_eq_false. done. }
  split_and!.
  - intros Hc. apply Hin in Hc. tauto.
  - exact Hin.
  - subst o'. simpl. clear Hin. induction (listeners o) as [|c ls IH]; simpl; [done|].
    destruct (negb (bool_decide (c = callback))); by constructor.
  - subst o'. unfold removeListener, addListener. simpl. f_equal.
    rewrite !List.filter_app. simpl. rewrite bool_decide_eq_true_2 by done. simpl.
    by rewrite !app_nil_r.
  - intros Hn. unfold removeListener, addListener. simpl.
    rewrite List.filter_app. simpl. rewrite bool_decide_eq_true_2 by done. simpl.
    rewrite app_nil_r, filter_not_elem by done. by destruct o.
  - intros c Hc.
    destruct (notify_fold eventType data (listeners o') o') as (_ & Hcalled & _).
    change (foldl (notify_one call eventType data) o' (listeners o'))
      with (notifyListeners call eventType data o') in Hcalled.
    rewrite Hcalled, drop_app_length in Hc.
    apply list_elem_of_fmap in Hc as (cb & -> & Hcb). simpl.
    apply Hin in Hcb. tauto.
Qed.

End ListenerFacts.

(** ** The retrying fetch *)

Section RetryFacts.
Import HardToTest.
Context {A : Type}.
Variables (userId : string) (maxRetries : Z).
Implicit Types (replies : list (Outcome (Response A))) (st : Retrying).

Lemma after_failures_step st k :
  after_failures userId k
    {| retryCount := retryCount st + 1;
       fetched := fetched (after_fetch userId st);
       logged := logged st ++ [retry_message userId (retryCount st + 1)];
       timers := timers st ++ [backoff (retryCount st + 1)] |}
  = after_failures userId (S k) st.
Proof.
  unfold after_failures, after_fetch.
  cbn [retryCount fetched logged timers].
  change (seq 0 (S k)) with (0%nat :: seq 1 k).
  rewrite <- !seq_shift, !map_cons, !map_map, <- !app_assoc.
  f_equal.
  - lia.
  - f_equal. cbn [app]. f_equal.
    + f_equal. lia.
    + apply map_ext. intros i. f_equal. lia.
  - f_equal. cbn [app]. f_equal.
    + f_equal. lia.
    + apply map_ext. intros i. f_equal. lia.
Qed.

(** Attempts that fail while retries are left are each followed by a retry. *)
Lemma attemptFetch_failures (failures rest : list (Outcome (Response A))) st :
  Forall fails failures →
  retryCount st + Z.of_nat (length failures) ≤ maxRetries →
  attemptFetch userId maxRetries (failures ++ rest) st
  = attemptFetch userId maxRetries rest (after_failures userId (length failures) st).
Proof.
  revert st. induction failures as [|reply failures IH]; intros st Hf Hle; simpl.
  - f_equal. unfold after_failures. destruct st; simpl.
    rewrite !app_nil_r. f_equal. lia.
  - apply Forall_cons in Hf as [[error Herr] Hf]. rewrite Herr.
    simpl in Hle. rewrite (proj2 (Z.ltb_lt _ _)) by lia.
    rewrite IH; [|done|simpl; lia].
    f_equal. apply after_failures_step.
Qed.

Lemma backoffs_sum (k : nat) :
  foldr Z.add 0 (map (λ i, backoff (0 + 1 + Z.of_nat i)) (seq 0 k))
  = 1000 * (2 ^ Z.of_nat k - 1).
Proof.
  induction k as [|k IH]; [reflexivity|].
  rewrite seq_S, map_app, foldr_app. simpl.
  assert (∀ (l : list Z) (x : Z), foldr Z.add x l = foldr Z.add 0 l + x) as Hshift.
  { induction l as [|y l IHl]; intros x; simpl; [lia|]. rewrite IHl. lia. }
  rewrite Hshift, IH. unfold backoff.
  replace (0 + 1 + Z.of_nat k) with (Z.succ (Z.of_nat k)) by lia.
  rewrite Nat2Z.inj_succ, !Z.pow_succ_r by lia. lia.
Qed.

(** X19. [fetchUserDataWithRetry] returns the body of the first attempt
    that succeeds, as long as no more than [maxRetries] attempts failed
    before it: it has then fetched once for each failure and once more, each
    time the URL of the user, and it looks at no later reply. *)
Theorem fetchUserDataWithRetry_first_success
    (failures rest : list (Outcome (Response A))) reply data :
  Forall fails failures →
  Z.of_nat (length failures) ≤ maxRetries →
  received reply = Returned data →
  fetchUserDataWithRetry userId maxRetries (failures ++ reply :: rest)
  = Some (Returned data,
          after_fetch userId (after_failures userId (length failures) fresh_call))
  ∧ length (fetched (after_fetch userId
                       (after_failures userId (length failures) fresh_call)))
    = S (length failures).
Proof.
  intros Hf Hle Hok. split.
  - unfold fetchUserDataWithRetry. fold fresh_call.
    rewrite attemptFetch_failures by (done || simpl; lia).
    simpl. rewrite Hok. reflexivity.
  - simpl. rewrite length_app, length_replicate. simpl. lia.
Qed.

(** X20. When the first attempt and all the retries fail,
    [fetchUserDataWithRetry] throws the error of the last attempt. With
    [n] = [maxRetries] (none if that is negative) it has fetched [n] + 1
    times, and the timers it set waited for at least 1000, 2000, and so on,
    doubling: [1000 * (2 ^ n - 1)] milliseconds in all. *)
Theorem fetchUserDataWithRetry_gives_up
    (failures rest : list (Outcome (Response A))) reply error :
  Forall fails failures →
  Z.of_nat (length failures) = Z.max 0 maxRetries →
  received reply = Thrown error →
  let final := after_fetch userId (after_failures userId (length failures) fresh_call) in
  fetchUserDataWithRetry userId maxRetries (failures ++ reply :: rest)
  = Some (Thrown error, final)
  ∧ length (fetched final) = S (length failures)
  ∧ timers final = map (λ i, 2 ^ (Z.of_nat i + 1) * 500) (seq 0 (length failures))
  ∧ foldr Z.add 0 (timers final) = 1000 * (2 ^ Z.of_nat (length failures) - 1).
Proof.
  intros Hf Hlen Herr final. subst final. split_and!.
  - unfold fetchUserDataWithRetry. fold fresh_call.
    destruct failures as [|r0 failures].
    + simpl in *. rewrite Herr. rewrite (proj2 (Z.ltb_ge _ _)) by lia.
      reflexivity.
    + rewrite attemptFetch_failures by (done || simpl in *; lia).
      simpl attemptFetch. rewrite Herr.
      rewrite (proj2 (Z.ltb_ge _ _)) by (simpl in *; lia).
      reflexivity.
  - simpl. rewrite length_app, length_replicate. simpl. lia.
  - simpl. apply map_ext. intros i. unfold backoff. f_equal. f_equal. lia.
  - simpl. apply backoffs_sum.
Qed.

(** X21. [fetchUserDataWithRetry] settles as soon as [maxRetries] + 1
    fetches have settled, whatever they settled with, and never fetches more
    often than that; until it settles it has set one timer for each fetch
    but the latest. *)
Theorem fetchUserDataWithRetry_settles replies :
  (Z.to_nat maxRetries < length replies)%nat →
  ∃ result final,
    fetchUserDataWithRetry userId maxRetries replies = Some (result, final)
    ∧ (length (fetched final) ≤ Z.to_nat maxRetries + 1)%nat
    ∧ length (fetched final) = S (length (timers final))
    ∧ retryCount final = Z.of_nat (length (timers final)).
Proof.
  unfold fetchUserDataWithRetry. fold fresh_call.
  assert (∀ replies st,
            0 ≤ retryCount st →
            (Z.to_nat (maxRetries - retryCount st) < length replies)%nat →
            ∃ result final,
              attemptFetch userId maxRetries replies st = Some (result, final)
              ∧ (length (fetched final) - length (fetched st)
                 ≤ Z.to_nat (maxRetries - retryCount st) + 1)%nat
              ∧ (length (fetched final) - length (fetched st)
                 = S (length (timers final) - length (timers st)))%nat
              ∧ (length (timers st) ≤ length (timers final))%nat
              ∧ retryCount final - retryCount st
                = Z.of_nat (length (timers final) - length (timers st))) as Hgen.
  { clear replies. induction replies as [|reply replies IH]; intros st Hrc Hlen;
      simpl in *; [lia|].
    destruct (received reply) as [data|error].
    - eexists _, _. split; [reflexivity|]. simpl. rewrite length_app. simpl.
      split_and!; lia.
    - destruct (retryCount st <? maxRetries) eqn:Hlt.
      + apply Z.ltb_lt in Hlt.
        edestruct IH as (result & final & Hrun & H1 & H2 & H3 & H4);
          [| |exists result, final; split; [exact Hrun|]].
        * simpl. lia.
        * simpl. lia.
        * simpl in *. rewrite !length_app in *. simpl in *. split_and!; lia.
      + eexists _, _. split; [reflexivity|]. simpl. rewrite length_app. simpl.
        split_and!; lia. }
  intros Hlen. destruct (Hgen replies fresh_call) as (result & final & Hrun & H1 & H2 & H3 & H4).
  - simpl. lia.
  - simpl. replace (maxRetries - 0) with maxRetries by lia. exact Hlen.
  - exists result, final. simpl in *.
    replace (maxRetries - 0) with maxRetries in H1 by lia.
    split_and!; [done|lia|lia|lia].
Qed.

End RetryFacts.


(** ** The further properties on concrete runs *)

Lemma fetched_user_is_cached_for_the_window_witness :
  let w1 := (getUserById_resume "1" 1000 (Returned Mock.alice)
               (Mock.world_at_reply Mock.empty_store)).2 in
  (getUserById_start "1" (set_clock 60999 w1)).1 = Returned (CacheHit Mock.alice)
  ∧ (getUserById_start "1" (set_clock 61000 w1)).1 = Returned (AwaitingGet "1" 61000).
Proof.
  intros w1. split.
  - exact (proj1 (proj1 (fetched_user_is_cached_for_the_window Mock.idle_world
                           (Mock.world_at_reply Mock.empty_store) "1" "1" 1000
                           Mock.alice 60999 eq_refl) eq_refl)).
  - exact (proj1 (proj2 (fetched_user_is_cached_for_the_window Mock.idle_world
                           (Mock.world_at_reply Mock.empty_store) "1" "1" 1000
                           Mock.alice 61000 eq_refl) ltac:(vm_compute; discriminate))).
Defined.

Lemma fetch_refreshes_other_entries_witness :
  default_cacheDuration ≤ 100001 - lastFetchTime (this Fixtures.stale_busy_world)
  ∧ (getUserById_start "1"
       (set_clock 100001
          (getUserById_resume "2" 100000 (Returned Mock.bob)
             Fixtures.stale_busy_world).2)).1
    = Returned (CacheHit Mock.alice).
Proof.
  split; [vm_compute; discriminate|].
  exact (proj1 (fetch_refreshes_other_entries Fixtures.stale_busy_world "2" "1" 100000
                  Mock.bob Mock.alice 100001 ltac:(discriminate)
                  ltac:(vm_compute; reflexivity) eq_refl)).
Defined.

Lemma persisted_user_is_the_fallback_witness :
  let w1 := (getUserById_resume "1" 1000 (Returned Mock.alice)
               (Mock.world_at_reply Mock.empty_store)).2 in
  (getUserById_resume "1" 9000 (Thrown (Error "HTTP error 500")) w1).1
  = Returned Mock.alice.
Proof.
  intros w1.
  exact (persisted_user_is_the_fallback (Mock.world_at_reply Mock.empty_store) w1
           "1" 1000 9000 Mock.alice "json:1" Mock.alice_stored (Error "HTTP error 500")
           eq_refl eq_refl eq_refl eq_refl ltac:(vm_compute; reflexivity) eq_refl).
Defined.

Lemma settled_system_step :
  step (get_settles 0 (Returned Mock.alice)) Mock.waiting_system
  = Some Fixtures.settled_system.
Proof. vm_compute. reflexivity. Defined.

Lemma cache_changes_only_by_fulfilled_replies_witness :
  cachedUsers (this (world Fixtures.settled_system))
  = <[ "1" := Mock.alice ]> (cachedUsers (this (world Mock.waiting_system))).
Proof.
  destruct (cache_changes_only_by_fulfilled_replies
              (get_settles 0 (Returned Mock.alice))
              Mock.waiting_system Fixtures.settled_system settled_system_step)
    as [H | [[H _] | [(i & id & now & user & He & Ht & H) | (i & ? & ? & ? & ? & H & _)]]].
  - vm_compute in H. discriminate H.
  - discriminate H.
  - injection He as <- <-. vm_compute. reflexivity.
  - discriminate H.
Defined.


Lemma three_failures : Forall HardToTest.fails
  [HardToTest.not_found; HardToTest.not_found; HardToTest.unavailable].
Proof. repeat constructor; eexists; reflexivity. Defined.

Lemma fetchUserDataWithRetry_first_success_witness :
  HardToTest.fetchUserDataWithRetry "42" 3
    [HardToTest.not_found; HardToTest.not_found; HardToTest.unavailable;
     HardToTest.found "body"; HardToTest.not_found]
  = Some (Returned "body",
          {| HardToTest.retryCount := 3;
             HardToTest.fetched := replicate 4 "https://api.example.com/users/42";
             HardToTest.logged :=
               [HardToTest.console_log "Retry attempt 1 for user 42";
                HardToTest.console_log "Retry attempt 2 for user 42";
                HardToTest.console_log "Retry attempt 3 for user 42"];
             HardToTest.timers := [1000; 2000; 4000] |}).
Proof.
  exact (proj1 (fetchUserDataWithRetry_first_success "42" 3
                  [HardToTest.not_found; HardToTest.not_found; HardToTest.unavailable]
                  [HardToTest.not_found] (HardToTest.found "body") "body"
                  three_failures ltac:(simpl; lia) eq_refl)).
Defined.

Lemma fetchUserDataWithRetry_gives_up_witness :
  (fst <$> HardToTest.fetchUserDataWithRetry "42" 3
             [HardToTest.not_found; HardToTest.not_found; HardToTest.unavailable;
              HardToTest.not_found; HardToTest.found "late"])
  = Some (Thrown (Error "HTTP error! status: 404")).
Proof.
  destruct (fetchUserDataWithRetry_gives_up "42" 3
              [HardToTest.not_found; HardToTest.not_found; HardToTest.unavailable]
              [HardToTest.found "late"] HardToTest.not_found
              (Error "HTTP error! status: 404")
              three_failures eq_refl eq_refl) as (H & _).
  exact (f_equal (fmap fst) H).
Defined.

Lemma fetchUserDataWithRetry_settles_witness :
  ∃ result final,
    HardToTest.fetchUserDataWithRetry "42" 1
      [HardToTest.unavailable; HardToTest.found "body"] = Some (result, final)
    ∧ (length (HardToTest.fetched final) ≤ 2)%nat
    ∧ length (HardToTest.fetched final) = S (length (HardToTest.timers final))
    ∧ HardToTest.retryCount final = Z.of_nat (length (HardToTest.timers final)).
Proof.
  exact (fetchUserDataWithRetry_settles "42" 1
           [HardToTest.unavailable; HardToTest.found "body"] ltac:(simpl; lia)).
Defined.

(** With no retries allowed the first failure is final, and no timer is set. *)
Example fetchUserDataWithRetry_no_retries :
  HardToTest.fetchUserDataWithRetry "42" 0 [HardToTest.unavailable; HardToTest.found "body"]
  = Some (Thrown (Error "HTTP error! status: 503"),
          {| HardToTest.retryCount := 0;
             HardToTest.fetched := ["https://api.example.com/users/42"];
             HardToTest.logged := []; HardToTest.timers := [] |}).
Proof. reflexivity. Qed.

(** A listener that throws stops no one: the count shows all three calls of
    the listeners that count. *)
Example notifyListeners_example :
  let o := HardToTest.notifyListeners HardToTest.call_callback "score-updated" 7
             (HardToTest.observed
                [HardToTest.counting; HardToTest.throwing; HardToTest.doubling]) in
  HardToTest.env o = 3
  ∧ HardToTest.console o
    = [HardToTest.console_error "Listener error" (Error "listener failed")]
  ∧ length (HardToTest.called o) = 3%nat.
Proof. repeat split. Qed.
